(** * A shallow embedding of the Shaya content client

    The client library exists in two variants, [shaya-content-client.js]
    and [shaya-content-client.ts]; the TypeScript file also holds the
    React hook [useShayaContent].  Both wrap [fetch]: a request is built
    (URL, headers, JSON body), dispatched, and the response is either
    returned as parsed JSON or turned into a thrown [Error].

    JavaScript values are an inductive type, asynchronous functions are
    programs over the two kinds of effect the source has (a [fetch] and
    the hook's three state setters), and the header object is a finite
    map from header names to values. *)

From Stdlib Require Import ZArith NArith Bool Ascii String List.
From stdpp Require Import base option strings pretty list gmap.

Local Open Scope string_scope.
Set Warnings "-register-all".

(** ** JavaScript values *)

(** A number is a double; the client never computes with one, it only
    tests it ([if], [||]) and prints it ([String], [JSON.stringify]).
    So a number is given by these observations: whether it is falsy
    (a zero or NaN), whether it is finite, and the text [String] prints
    for it, whatever its form ([7], [1.5], [1e+21], [NaN]). *)
Record number : Type := mkNumber {
  num_falsy : bool;
  num_finite : bool;
  num_text : string
}.

(** A finite number other than zero, by the text it prints as. *)
Definition nonzero (text : string) : number :=
  {| num_falsy := false; num_finite := true; num_text := text |}.

(** The values that flow through the client: method arguments, the
    object handed to [JSON.stringify], parsed response bodies, values
    thrown.  An object is the list of its own properties in the order
    the runtime enumerates them, the first binding of a name being the
    property. *)
Inductive value : Type :=
| VUndefined
| VNull
| VBool (b : bool)
| VNum (n : number)
| VStr (s : string)
| VArr (items : list value)
| VObj (props : list (string * value)).

(** Induction over values, through the lists of arrays and objects. *)
Section ValueInduction.
Variable P : value -> Prop.
Hypothesis case_undefined : P VUndefined.
Hypothesis case_null : P VNull.
Hypothesis case_bool : forall b, P (VBool b).
Hypothesis case_num : forall n, P (VNum n).
Hypothesis case_str : forall s, P (VStr s).
Hypothesis case_arr : forall items, Forall P items -> P (VArr items).
Hypothesis case_obj :
  forall props, Forall (fun kv => P (snd kv)) props -> P (VObj props).

Fixpoint value_induction (v : value) : P v :=
  match v with
  | VUndefined => case_undefined
  | VNull => case_null
  | VBool b => case_bool b
  | VNum n => case_num n
  | VStr s => case_str s
  | VArr items =>
      case_arr items
        ((fix all (l : list value) : Forall P l :=
            match l with
            | [] => List.Forall_nil P
            | x :: rest => List.Forall_cons P x rest (value_induction x) (all rest)
            end) items)
  | VObj props =>
      case_obj props
        ((fix all (l : list (string * value))
            : Forall (fun kv => P (snd kv)) l :=
            match l with
            | [] => List.Forall_nil _
            | kv :: rest =>
                List.Forall_cons _ kv rest (value_induction (snd kv)) (all rest)
            end) props)
  end.
End ValueInduction.

(** An [Error] object: its [name] and its [message]. *)
Record js_error : Type := mkError { name : string; message : string }.

(** Anything can be thrown in JavaScript: an [Error] instance or any
    other value. *)
Inductive thrown : Type :=
| ThrowError (e : js_error)
| ThrowValue (v : value).

(** [new Error(msg)] *)
Definition new_Error (msg : string) : js_error :=
  {| name := "Error"; message := msg |}.

(** ToBoolean, as used by [if (x)] and [x || y]. *)
Definition truthy (v : value) : bool :=
  match v with
  | VUndefined | VNull => false
  | VBool b => b
  | VNum n => negb (num_falsy n)
  | VStr s => negb (String.eqb s "")
  | VArr _ | VObj _ => true
  end.

(** [a || b] *)
Definition js_or (a b : value) : value := if truthy a then a else b.

(** A parameter with a default, [p = d]: the default applies exactly
    when the argument is [undefined] (absent). *)
Definition param_default (arg d : value) : value :=
  match arg with
  | VUndefined => d
  | _ => arg
  end.

(** Joining strings with a separator, as [Array.prototype.join]. *)
Fixpoint join (sep : string) (l : list string) : string :=
  match l with
  | [] => ""
  | [x] => x
  | x :: rest => x ++ sep ++ join sep rest
  end.

(** Whether an object has an own property of that name. *)
Fixpoint has_prop (key : string) (props : list (string * value)) : bool :=
  match props with
  | [] => false
  | (k, _) :: rest => String.eqb k key || has_prop key rest
  end.

(** The error of a conversion that finds no primitive (the message is
    V8's). *)
Definition TypeError_convert : js_error :=
  {| name := "TypeError"; message := "Cannot convert object to primitive value" |}.

(** Converting the elements of a list in order, up to the first one
    that throws. *)
Definition each {A : Type} (f : A -> js_error + string)
  : list A -> js_error + list string :=
  fix go (l : list A) : js_error + list string :=
    match l with
    | [] => inr []
    | x :: rest =>
        match f x with
        | inl e => inl e
        | inr t =>
            match go rest with
            | inl e => inl e
            | inr ts => inr (t :: ts)
            end
        end
    end.

(** [String(v)]: ToString, which can throw.  An object prints through
    its [toString]: the inherited one gives [[object Object]], but an
    own property of that name hides it, and as no value here is a
    function the conversion then finds nothing to call and throws.  An
    array prints its elements joined by commas, [null] and [undefined]
    as the empty string, and throws when an element does. *)
Fixpoint to_string (v : value) : js_error + string :=
  match v with
  | VUndefined => inr "undefined"
  | VNull => inr "null"
  | VBool true => inr "true"
  | VBool false => inr "false"
  | VNum n => inr (num_text n)
  | VStr s => inr s
  | VArr items =>
      match
        each (fun x => match x with
                       | VUndefined | VNull => inr ""
                       | _ => to_string x
                       end) items
      with
      | inl e => inl e
      | inr ts => inr (join "," ts)
      end
  | VObj props =>
      if has_prop "toString" props then inl TypeError_convert
      else inr "[object Object]"
  end.

(** Member access [v.key], for the names the client reads ([detail],
    [content]) and those of the payload, none of which is inherited.
    Reading a property of [null] or [undefined] throws a [TypeError]
    (the message is V8's); on an object the property list is searched;
    the other values carry none of these properties. *)
Fixpoint lookup_prop (key : string) (props : list (string * value)) : value :=
  match props with
  | [] => VUndefined
  | (k, v) :: rest => if String.eqb k key then v else lookup_prop key rest
  end.

Definition TypeError_read (what key : string) : js_error :=
  {| name := "TypeError";
     message := "Cannot read properties of " ++ what
                ++ " (reading '" ++ key ++ "')" |}.

Definition get_prop (v : value) (key : string) : js_error + value :=
  match v with
  | VUndefined => inl (TypeError_read "undefined" key)
  | VNull => inl (TypeError_read "null" key)
  | VObj props => inr (lookup_prop key props)
  | _ => inr VUndefined
  end.

(** ** [JSON.stringify] *)

Definition hex_digit (n : N) : ascii :=
  match n with
  | 0 => "0" | 1 => "1" | 2 => "2" | 3 => "3" | 4 => "4" | 5 => "5"
  | 6 => "6" | 7 => "7" | 8 => "8" | 9 => "9" | 10 => "a" | 11 => "b"
  | 12 => "c" | 13 => "d" | 14 => "e" | _ => "f"
  end%N%char.

Definition dquote : string := String (ascii_of_N 34) "".
Definition backslash : string := String (ascii_of_N 92) "".

(** One character of a quoted JSON string: the quote, the backslash and
    the control characters are escaped, everything else is kept. *)
Definition escape_char (c : ascii) : string :=
  let n := N_of_ascii c in
  if (n =? 34)%N then backslash ++ dquote
  else if (n =? 92)%N then "\\"
  else if (n =? 8)%N then "\b"
  else if (n =? 12)%N then "\f"
  else if (n =? 10)%N then "\n"
  else if (n =? 13)%N then "\r"
  else if (n =? 9)%N then "\t"
  else if (n <? 32)%N then
    "\u00" ++ String (hex_digit (n / 16)) (String (hex_digit (n mod 16)) "")
  else String c "".

Fixpoint escape (s : string) : string :=
  match s with
  | "" => ""
  | String c rest => escape_char c ++ escape rest
  end.

Definition quote (s : string) : string := dquote ++ escape s ++ dquote.

(** [JSON.stringify(v)].  [undefined] has no JSON text: at top level the
    result is [None], as a property value the property is left out, as
    an array element it prints as [null].  A finite number prints as
    [String] prints it, any other number as [null]. *)
Fixpoint JSON_stringify (v : value) : option string :=
  match v with
  | VUndefined => None
  | VNull => Some "null"
  | VBool true => Some "true"
  | VBool false => Some "false"
  | VNum n => Some (if num_finite n then num_text n else "null")
  | VStr s => Some (quote s)
  | VArr items =>
      Some ("[" ++ join "," (List.map (fun x =>
                     match JSON_stringify x with
                     | Some t => t
                     | None => "null"
                     end) items) ++ "]")
  | VObj props =>
      Some ("{" ++ join "," (List.concat (List.map (fun kv =>
                     match JSON_stringify (snd kv) with
                     | Some t => [quote (fst kv) ++ ":" ++ t]
                     | None => []
                     end) props)) ++ "}")
  end.

(** ** The transport *)

(** The init object passed to [fetch]; of [RequestInit] the client uses
    [method], [body] and [headers].  The same record is the [options]
    argument of [request], where [headers] may be absent; when present
    it is a plain object from header names to values (the [Record] the
    TypeScript file casts it to), which is what the spread copies. *)
Record RequestInit : Type := mkInit {
  method : option string;
  body : option string;
  headers : option (gmap string string)
}.

(** A call [fetch(url, init)]. *)
Record FetchCall : Type := mkCall { url : string; init : RequestInit }.

(** What the client observes of a [Response]: its [status] (a status
    code, which a template literal prints in decimal) and how
    [response.json()] settles, with a parsed value or with a rejection
    (the body is empty or is not JSON). *)
Record Response : Type := mkResponse {
  status : N;
  json : thrown + value
}.

(** [response.ok]: the status is in the range 200-299. *)
Definition ok (r : Response) : bool :=
  ((200 <=? status r) && (status r <=? 299))%N.

(** [fetch] settles with a response, or rejects (network failure). *)
Definition fetch_outcome : Type := thrown + Response.

(** ** Asynchronous programs *)

(** An asynchronous function of the client or of the hook, as the tree
    of its effects: it returns, throws, calls one of the hook's state
    setters, or awaits a [fetch]. *)
Inductive Prog (A : Type) : Type :=
| Ret (a : A)
| Throw (t : thrown)
| SetIsLoading (b : bool) (k : Prog A)
| SetError (e : option js_error) (k : Prog A)
| SetContent (v : value) (k : Prog A)
| Fetch (call : FetchCall) (k : fetch_outcome -> Prog A).

Arguments Ret {A} a.
Arguments Throw {A} t.
Arguments SetIsLoading {A} b k.
Arguments SetError {A} e k.
Arguments SetContent {A} v k.
Arguments Fetch {A} call k.

Fixpoint bind {A B : Type} (p : Prog A) (f : A -> Prog B) : Prog B :=
  match p with
  | Ret a => f a
  | Throw t => Throw t
  | SetIsLoading b k => SetIsLoading b (bind k f)
  | SetError e k => SetError e (bind k f)
  | SetContent v k => SetContent v (bind k f)
  | Fetch c k => Fetch c (fun o => bind (k o) f)
  end.

(** [try { p } catch (err) { h err }] *)
Fixpoint try_catch {A : Type} (p : Prog A) (h : thrown -> Prog A) : Prog A :=
  match p with
  | Ret a => Ret a
  | Throw t => h t
  | SetIsLoading b k => SetIsLoading b (try_catch k h)
  | SetError e k => SetError e (try_catch k h)
  | SetContent v k => SetContent v (try_catch k h)
  | Fetch c k => Fetch c (fun o => try_catch (k o) h)
  end.

(** [try { p } finally { f }]: [f] runs however [p] completes, and the
    completion of [p] stands unless [f] throws itself. *)
Fixpoint finally {A : Type} (p : Prog A) (f : Prog unit) : Prog A :=
  match p with
  | Ret a => bind f (fun _ => Ret a)
  | Throw t => bind f (fun _ => Throw t)
  | SetIsLoading b k => SetIsLoading b (finally k f)
  | SetError e k => SetError e (finally k f)
  | SetContent v k => SetContent v (finally k f)
  | Fetch c k => Fetch c (fun o => finally (k o) f)
  end.

Declare Scope prog_scope.
Delimit Scope prog_scope with prog.
Notation "x <- p ;; q" := (bind p (fun x => q))
  (at level 100, p at next level, right associativity) : prog_scope.

(** Lifting the outcome of a synchronous step that may throw. *)
Definition lift_error {A : Type} (r : js_error + A) : Prog A :=
  match r with
  | inl e => Throw (ThrowError e)
  | inr a => Ret a
  end.

(** [await response.json()] *)
Definition response_json (r : Response) : Prog value :=
  match json r with
  | inl t => Throw t
  | inr v => Ret v
  end.

(** [await response.json().catch(() => fallback)] *)
Definition response_json_catch (r : Response) (fallback : value) : Prog value :=
  match json r with
  | inl _ => Ret fallback
  | inr v => Ret v
  end.

(** ** The client: constructor and [request] *)

(** [baseUrl.replace(/\/$/, '')]: the pattern matches a slash that is
    the last character of the string, and that one slash is removed. *)
Fixpoint remove_trailing_slash (s : string) : string :=
  match s with
  | "" => ""
  | String c rest =>
      if Ascii.eqb c "/" && String.eqb rest "" then ""
      else String c (remove_trailing_slash rest)
  end.

Record ShayaContentClient : Type := mkClient {
  baseUrl : string;
  apiKey : option string
}.

(** [new ShayaContentClient(baseUrl, apiKey)]; an absent key is [null]
    in the JavaScript file and [undefined] in the TypeScript one, here
    [None]. *)
Definition new_client (base : string) (key : option string) : ShayaContentClient :=
  {| baseUrl := remove_trailing_slash base; apiKey := key |}.

(** [if (this.apiKey)]: a key that is present and not the empty string. *)
Definition configured_key (c : ShayaContentClient) : option string :=
  match apiKey c with
  | Some k => if String.eqb k "" then None else Some k
  | None => None
  end.

(** The header object of [request]: the literal with [Content-Type]
    first and the caller's headers spread over it, then the assignment
    of [X-API-Key] when a key is configured. *)
Definition request_headers (c : ShayaContentClient) (options : RequestInit)
  : gmap string string :=
  let spread : gmap string string :=
    default ∅ (headers options) ∪ {[ "Content-Type" := "application/json" ]} in
  match configured_key c with
  | Some k => <[ "X-API-Key" := k ]> spread
  | None => spread
  end.

(** The call [fetch(`${this.baseUrl}${endpoint}`, {...options, headers})]. *)
Definition request_call (c : ShayaContentClient) (endpoint : string)
    (options : RequestInit) : FetchCall :=
  {| url := baseUrl c ++ endpoint;
     init := {| method := method options;
                body := body options;
                headers := Some (request_headers c options) |} |}.

(** What is thrown for a response that is not ok:
    [new Error(error.detail || `HTTP ${response.status}`)].  The
    constructor makes its argument a string; when that conversion
    throws, its [TypeError] is what leaves [request]. *)
Definition failure_error (detail : value) (r : Response) : js_error :=
  match to_string (js_or detail (VStr ("HTTP " ++ pretty (status r)))) with
  | inr msg => new_Error msg
  | inl e => e
  end.

Definition request (c : ShayaContentClient) (endpoint : string)
    (options : RequestInit) : Prog value :=
  Fetch (request_call c endpoint options) (fun outcome =>
    match outcome with
    | inl t => Throw t
    | inr response =>
        if negb (ok response) then
          (error <- response_json_catch response
                      (VObj [("detail", VStr "Unknown error")]) ;;
           detail <- lift_error (get_prop error "detail") ;;
           Throw (ThrowError (failure_error detail response)))%prog
        else response_json response
    end).

Definition no_options : RequestInit :=
  {| method := None; body := None; headers := None |}.

(** The endpoints without a body, the same in both variants. *)
Definition getInfo (c : ShayaContentClient) : Prog value :=
  request c "/" no_options.

Definition health (c : ShayaContentClient) : Prog value :=
  request c "/health" no_options.

Definition getVoiceProfile (c : ShayaContentClient) : Prog value :=
  request c "/voice-profile" no_options.

Definition getFormats (c : ShayaContentClient) : Prog value :=
  request c "/formats" no_options.

Definition getSystemPrompt (c : ShayaContentClient) : Prog value :=
  request c "/system-prompt" no_options.

(** The options of the POST to [/generate], given the object that is
    stringified into the body. *)
Definition post_json (payload : value) : RequestInit :=
  {| method := Some "POST"; body := JSON_stringify payload; headers := None |}.

(** [const response = await gen; return response.content;] *)
Definition content_of (gen : Prog value) : Prog value :=
  (response <- gen ;; lift_error (get_prop response "content"))%prog.

(** ** [shaya-content-client.js] *)
Module JS.

(** [generate(topic, format = 'article', additionalContext = '',
    promptOnly = false)] *)
Definition generate_payload (topic format additionalContext promptOnly : value)
  : value :=
  let format := param_default format (VStr "article") in
  let additionalContext := param_default additionalContext (VStr "") in
  let promptOnly := param_default promptOnly (VBool false) in
  VObj [("topic", topic);
        ("format", format);
        ("additional_context", additionalContext);
        ("prompt_only", promptOnly)].

Definition generate (c : ShayaContentClient)
    (topic format additionalContext promptOnly : value) : Prog value :=
  request c "/generate"
    (post_json (generate_payload topic format additionalContext promptOnly)).

(** The shorthands declare [context = '']. *)
Definition generateArticle (c : ShayaContentClient) (topic context : value)
  : Prog value :=
  let context := param_default context (VStr "") in
  content_of (generate c topic (VStr "article") context VUndefined).

Definition generateSocialPost (c : ShayaContentClient) (topic context : value)
  : Prog value :=
  let context := param_default context (VStr "") in
  content_of (generate c topic (VStr "social_media") context VUndefined).

Definition generateClassOutline (c : ShayaContentClient) (topic context : value)
  : Prog value :=
  let context := param_default context (VStr "") in
  content_of (generate c topic (VStr "class_outline") context VUndefined).

Definition generateReflection (c : ShayaContentClient) (topic context : value)
  : Prog value :=
  let context := param_default context (VStr "") in
  content_of (generate c topic (VStr "short_reflection") context VUndefined).

Definition getPrompt (c : ShayaContentClient) (topic format context : value)
  : Prog value :=
  let format := param_default format (VStr "article") in
  let context := param_default context (VStr "") in
  content_of (generate c topic format context (VBool true)).

End JS.

(** ** [shaya-content-client.ts] *)
Module TS.

(** [generate(topic, format = 'article', additionalContext?,
    promptOnly = false)], with [additionalContext || ''] in the body. *)
Definition generate_payload (topic format additionalContext promptOnly : value)
  : value :=
  let format := param_default format (VStr "article") in
  let promptOnly := param_default promptOnly (VBool false) in
  VObj [("topic", topic);
        ("format", format);
        ("additional_context", js_or additionalContext (VStr ""));
        ("prompt_only", promptOnly)].

Definition generate (c : ShayaContentClient)
    (topic format additionalContext promptOnly : value) : Prog value :=
  request c "/generate"
    (post_json (generate_payload topic format additionalContext promptOnly)).

Definition generateArticle (c : ShayaContentClient) (topic context : value)
  : Prog value :=
  content_of (generate c topic (VStr "article") context VUndefined).

Definition generateSocialPost (c : ShayaContentClient) (topic context : value)
  : Prog value :=
  content_of (generate c topic (VStr "social_media") context VUndefined).

Definition generateClassOutline (c : ShayaContentClient) (topic context : value)
  : Prog value :=
  content_of (generate c topic (VStr "class_outline") context VUndefined).

Definition generateReflection (c : ShayaContentClient) (topic context : value)
  : Prog value :=
  content_of (generate c topic (VStr "short_reflection") context VUndefined).

Definition getPrompt (c : ShayaContentClient) (topic format context : value)
  : Prog value :=
  let format := param_default format (VStr "article") in
  content_of (generate c topic format context (VBool true)).

End TS.

(** The type [ContentFormat] of the TypeScript file. *)
Inductive ContentFormat : Type :=
| article
| social_media
| class_outline
| short_reflection.

Definition format_name (f : ContentFormat) : string :=
  match f with
  | article => "article"
  | social_media => "social_media"
  | class_outline => "class_outline"
  | short_reflection => "short_reflection"
  end.

(** Typed arguments as the values they are at run time; an absent
    optional argument is [undefined]. *)
Definition arg_string (a : option string) : value :=
  match a with Some s => VStr s | None => VUndefined end.

Definition arg_format (a : option ContentFormat) : value :=
  match a with Some f => VStr (format_name f) | None => VUndefined end.

Definition arg_bool (a : option bool) : value :=
  match a with Some b => VBool b | None => VUndefined end.

(** ** The hook [useShayaContent] *)

(** The three [useState] cells. *)
Record HookState : Type := mkState {
  isLoading : bool;
  error : option js_error;
  content : value
}.

(** [useState(false)], [useState(null)], [useState(null)] *)
Definition initial_state : HookState :=
  {| isLoading := false; error := None; content := VNull |}.

Record UseShayaContentOptions : Type := mkOptions {
  opt_baseUrl : string;
  opt_apiKey : option string
}.

(** [err instanceof Error ? err : new Error(String(err))]: the error
    obtained ([inr]), or the [TypeError] thrown by [String] when the
    value cannot be converted ([inl]). *)
Definition normalize (err : thrown) : js_error + js_error :=
  match err with
  | ThrowError e => inr e
  | ThrowValue v =>
      match to_string v with
      | inr msg => inr (new_Error msg)
      | inl e => inl e
      end
  end.

(** The frame every tracked method is written in (and which the
    helper [wrapAsync], used by none of them, spells out once more):
    [setIsLoading(true); setError(null);
     try { body } catch (err) { ...; setError(error); throw error; }
     finally { setIsLoading(false); }].
    When the normalization in the [catch] block throws, that error
    leaves the block before [setError] is reached. *)
Definition tracked {A : Type} (body : Prog A) : Prog A :=
  SetIsLoading true (SetError None
    (finally
       (try_catch body
          (fun err =>
             match normalize err with
             | inr error => SetError (Some error) (Throw (ThrowError error))
             | inl e => Throw (ThrowError e)
             end))
       (SetIsLoading false (Ret tt)))).

Module useShayaContent.

Definition client (options : UseShayaContentOptions) : ShayaContentClient :=
  new_client (opt_baseUrl options) (opt_apiKey options).

Definition generate (options : UseShayaContentOptions)
    (topic format additionalContext : value) : Prog value :=
  let format := param_default format (VStr "article") in
  tracked
    (response <- TS.generate (client options) topic format additionalContext
                   VUndefined ;;
     content <- lift_error (get_prop response "content") ;;
     SetContent content (Ret response))%prog.

Definition generateArticle (options : UseShayaContentOptions)
    (topic context : value) : Prog value :=
  content_of (generate options topic (VStr "article") context).

Definition generateSocialPost (options : UseShayaContentOptions)
    (topic context : value) : Prog value :=
  content_of (generate options topic (VStr "social_media") context).

Definition generateClassOutline (options : UseShayaContentOptions)
    (topic context : value) : Prog value :=
  content_of (generate options topic (VStr "class_outline") context).

Definition generateReflection (options : UseShayaContentOptions)
    (topic context : value) : Prog value :=
  content_of (generate options topic (VStr "short_reflection") context).

Definition getPrompt (options : UseShayaContentOptions)
    (topic format context : value) : Prog value :=
  let format := param_default format (VStr "article") in
  tracked
    (response <- TS.generate (client options) topic format context
                   (VBool true) ;;
     content <- lift_error (get_prop response "content") ;;
     SetContent content (Ret content))%prog.

Definition getVoiceProfile (options : UseShayaContentOptions) : Prog value :=
  tracked (getVoiceProfile (client options)).

Definition getFormats (options : UseShayaContentOptions) : Prog value :=
  tracked (getFormats (client options)).

(** [clearError = () => setError(null)] and
    [clearContent = () => setContent(null)] *)
Definition clearError : Prog unit := SetError None (Ret tt).
Definition clearContent : Prog unit := SetContent VNull (Ret tt).

End useShayaContent.

(** The tracked methods of the hook with their arguments. *)
Inductive tracked_call : Type :=
| CallGenerate (topic format additionalContext : value)
| CallGenerateArticle (topic context : value)
| CallGenerateSocialPost (topic context : value)
| CallGenerateClassOutline (topic context : value)
| CallGenerateReflection (topic context : value)
| CallGetPrompt (topic format context : value)
| CallGetVoiceProfile
| CallGetFormats.

Definition invoke (options : UseShayaContentOptions) (t : tracked_call)
  : Prog value :=
  match t with
  | CallGenerate topic format ctx =>
      useShayaContent.generate options topic format ctx
  | CallGenerateArticle topic ctx =>
      useShayaContent.generateArticle options topic ctx
  | CallGenerateSocialPost topic ctx =>
      useShayaContent.generateSocialPost options topic ctx
  | CallGenerateClassOutline topic ctx =>
      useShayaContent.generateClassOutline options topic ctx
  | CallGenerateReflection topic ctx =>
      useShayaContent.generateReflection options topic ctx
  | CallGetPrompt topic format ctx =>
      useShayaContent.getPrompt options topic format ctx
  | CallGetVoiceProfile => useShayaContent.getVoiceProfile options
  | CallGetFormats => useShayaContent.getFormats options
  end.

(** The client call a tracked method awaits. *)
Definition underlying (options : UseShayaContentOptions) (t : tracked_call)
  : Prog value :=
  let c := useShayaContent.client options in
  match t with
  | CallGenerate topic format ctx =>
      TS.generate c topic (param_default format (VStr "article")) ctx VUndefined
  | CallGenerateArticle topic ctx =>
      TS.generate c topic (VStr "article") ctx VUndefined
  | CallGenerateSocialPost topic ctx =>
      TS.generate c topic (VStr "social_media") ctx VUndefined
  | CallGenerateClassOutline topic ctx =>
      TS.generate c topic (VStr "class_outline") ctx VUndefined
  | CallGenerateReflection topic ctx =>
      TS.generate c topic (VStr "short_reflection") ctx VUndefined
  | CallGetPrompt topic format ctx =>
      TS.generate c topic (param_default format (VStr "article")) ctx (VBool true)
  | CallGetVoiceProfile => getVoiceProfile c
  | CallGetFormats => getFormats c
  end.

(** ** Running a program *)

(** How a run ends: the promise rejects with what was thrown, or
    resolves with a value. *)
Definition settled (A : Type) : Type := thrown + A.

(** [run fetch p s] runs [p] to its end from the hook state [s], with
    [fetch] answering every call; it yields the final state, the calls
    dispatched in order, and how the promise settles. *)
Fixpoint run {A : Type} (fetch : FetchCall -> fetch_outcome) (p : Prog A)
    (s : HookState) : HookState * list FetchCall * settled A :=
  match p with
  | Ret a => (s, [], inr a)
  | Throw t => (s, [], inl t)
  | SetIsLoading b k =>
      run fetch k {| isLoading := b; error := error s; content := content s |}
  | SetError e k =>
      run fetch k {| isLoading := isLoading s; error := e; content := content s |}
  | SetContent v k =>
      run fetch k {| isLoading := isLoading s; error := error s; content := v |}
  | Fetch c k =>
      let '(s', calls, r) := run fetch (k (fetch c)) s in
      (s', c :: calls, r)
  end.

Definition final_state {A : Type} (o : HookState * list FetchCall * settled A)
  : HookState := fst (fst o).
Definition dispatched {A : Type} (o : HookState * list FetchCall * settled A)
  : list FetchCall := snd (fst o).
Definition outcome {A : Type} (o : HookState * list FetchCall * settled A)
  : settled A := snd o.

(** Where a program stands when it first gives up control: suspended on
    a [fetch] that has been dispatched and has not settled, or already
    completed without awaiting anything. *)
Inductive suspension (A : Type) : Type :=
| Pending (s : HookState) (call : FetchCall)
| Completed (s : HookState) (r : settled A).

Arguments Pending {A} s call.
Arguments Completed {A} s r.

Fixpoint until_await {A : Type} (p : Prog A) (s : HookState) : suspension A :=
  match p with
  | Ret a => Completed s (inr a)
  | Throw t => Completed s (inl t)
  | SetIsLoading b k =>
      until_await k {| isLoading := b; error := error s; content := content s |}
  | SetError e k =>
      until_await k {| isLoading := isLoading s; error := e; content := content s |}
  | SetContent v k =>
      until_await k {| isLoading := isLoading s; error := error s; content := v |}
  | Fetch c _ => Pending s c
  end.

(** Substring test, for messages. *)
Fixpoint starts_with (p s : string) : bool :=
  match p, s with
  | "", _ => true
  | String a p', String b s' => Ascii.eqb a b && starts_with p' s'
  | String _ _, "" => false
  end.

Fixpoint contains (needle hay : string) : bool :=
  starts_with needle hay ||
  match hay with
  | "" => false
  | String _ rest => contains needle rest
  end.

(** A program that never touches the hook state. *)
Fixpoint stateless {A : Type} (p : Prog A) : Prop :=
  match p with
  | Ret _ | Throw _ => True
  | SetIsLoading _ _ | SetError _ _ | SetContent _ _ => False
  | Fetch _ k => forall o, stateless (k o)
  end.

(** Whether the last character of a string is a slash. *)
Fixpoint ends_with_slash (s : string) : bool :=
  match s with
  | "" => false
  | String c rest =>
      if String.eqb rest "" then Ascii.eqb c "/" else ends_with_slash rest
  end.

(** The request body as the specification words it:
    [{topic, format, additional_context: additionalContext ?? '',
      prompt_only: promptOnly}], with the defaults of the data model. *)
Definition spec_payload (topic : string) (format : option ContentFormat)
    (additionalContext : option string) (promptOnly : option bool) : value :=
  VObj [("topic", VStr topic);
        ("format", VStr (format_name (default article format)));
        ("additional_context", VStr (default "" additionalContext));
        ("prompt_only", VBool (default false promptOnly))].

(** The specification's reading of a format shorthand: the run of
    [generate], with the [content] field taken from its result. *)
Definition spec_content_field (o : HookState * list FetchCall * settled value)
  : HookState * list FetchCall * settled value :=
  (final_state o, dispatched o,
   match outcome o with
   | inl t => inl t
   | inr response =>
       match get_prop response "content" with
       | inl e => inl (ThrowError e)
       | inr v => inr v
       end
   end).

(** A transport that answers every call with the same response. *)
Definition always (r : Response) : FetchCall -> fetch_outcome :=
  fun _ => inr r.

(** What the specification asks of a format shorthand [a] against the
    run [g] of [generate]: the same request, the same rejection, the
    [content] of the resolved object, and, when [generate] never
    resolves to [null] or [undefined] (its declared result is an
    object), rejection in exactly the same runs. *)
Definition projects_content (a g : HookState * list FetchCall * settled value)
  : Prop :=
  a = spec_content_field g /\
  final_state a = final_state g /\
  dispatched a = dispatched g /\
  (forall t, outcome g = inl t -> outcome a = inl t) /\
  (forall props, outcome g = inr (VObj props) ->
     outcome a = inr (lookup_prop "content" props)) /\
  ((forall r, outcome g = inr r -> r <> VNull /\ r <> VUndefined) ->
   forall t, outcome a = inl t <-> outcome g = inl t).

(** The states of the lifecycle, as the specification names them. *)
Definition in_flight (s : HookState) : HookState :=
  {| isLoading := true; error := None; content := content s |}.

Definition settled_failure (s : HookState) (e : js_error) : HookState :=
  {| isLoading := false; error := Some e; content := content s |}.

Definition settled_success (s : HookState) (stored : option value) : HookState :=
  {| isLoading := false; error := None; content := default (content s) stored |}.

(** The tracked methods that store content, and what each resolves to
    given the response and its [content] field. *)
Definition bears_content (t : tracked_call) : bool :=
  match t with
  | CallGetVoiceProfile | CallGetFormats => false
  | _ => true
  end.

Definition resolved_value (t : tracked_call) (response content : value) : value :=
  match t with
  | CallGenerate _ _ _ | CallGetVoiceProfile | CallGetFormats => response
  | _ => content
  end.

(** The lifecycle of the specification: how a tracked call ends, given
    the run [u] of the client call it awaits from the state [s].  (A
    rejection that cannot be normalized leaves [error] cleared.) *)
Definition lifecycle (t : tracked_call) (s : HookState)
    (u : HookState * list FetchCall * settled value)
  : HookState * list FetchCall * settled value :=
  match outcome u with
  | inl t0 =>
      match normalize t0 with
      | inr e => (settled_failure s e, dispatched u, inl (ThrowError e))
      | inl e =>
          ({| isLoading := false; error := None; content := content s |},
           dispatched u, inl (ThrowError e))
      end
  | inr response =>
      if bears_content t then
        match get_prop response "content" with
        | inl e => (settled_failure s e, dispatched u, inl (ThrowError e))
        | inr v =>
            (settled_success s (Some v), dispatched u,
             inr (resolved_value t response v))
        end
      else (settled_success s None, dispatched u, inr response)
  end.

(** ** The helper [wrapAsync] of the hook *)


(** ** The sample component [ContentGenerator] *)

(** [!topic.trim()]: the topic is empty once its white space is trimmed,
    that is, it consists of white space and line terminators only.  The
    string is UTF-8 text, so the characters beyond ASCII that
    [String.prototype.trim] strips are matched by their encodings:
    U+00A0, U+1680, U+2000 to U+200A, U+2028, U+2029, U+202F, U+205F,
    U+3000 and U+FEFF. *)
Definition ascii_space (x : N) : bool :=
  ((x =? 9) || (x =? 10) || (x =? 11) || (x =? 12) || (x =? 13) || (x =? 32))%N.

Definition wide_space (x y z : N) : bool :=
  ((x =? 225) && (y =? 154) && (z =? 128)
   || (x =? 226) && (y =? 128)
      && ((128 <=? z) && (z <=? 138) || (z =? 168) || (z =? 169) || (z =? 175))
   || (x =? 226) && (y =? 129) && (z =? 159)
   || (x =? 227) && (y =? 128) && (z =? 128)
   || (x =? 239) && (y =? 187) && (z =? 191))%N.

Fixpoint blank (s : string) : bool :=
  match s with
  | "" => true
  | String a r1 =>
      if ascii_space (N_of_ascii a) then blank r1
      else
        match r1 with
        | "" => false
        | String b r2 =>
            if ((N_of_ascii a =? 194) && (N_of_ascii b =? 160))%N then blank r2
            else
              match r2 with
              | "" => false
              | String c r3 =>
                  if wide_space (N_of_ascii a) (N_of_ascii b) (N_of_ascii c)
                  then blank r3
                  else false
              end
        end
  end.

(** [handleSubmit]: nothing happens for a blank topic; otherwise the
    hook's [generate] is awaited and a failure is caught (it is logged
    to the console, which is not among the effects followed here, as is
    [e.preventDefault()]). *)
Definition handleSubmit (options : UseShayaContentOptions) (topic : string)
    (format : ContentFormat) (additionalContext : string) : Prog unit :=
  if blank topic then Ret tt
  else
    try_catch
      (_ <- useShayaContent.generate options (VStr topic)
              (VStr (format_name format)) (VStr additionalContext) ;;
       Ret tt)%prog
      (fun _ => Ret tt).

(** [disabled={isLoading || !topic.trim()}] of the submit button. *)
Definition submit_disabled (s : HookState) (topic : string) : bool :=
  isLoading s || blank topic.

(** ** The methods of the client, by name *)

Inductive variant : Type := JavaScript | TypeScript.

Inductive client_method : Type :=
| GetInfo
| Health
| GetVoiceProfile
| GetFormats
| GetSystemPrompt
| Generate (topic format additionalContext promptOnly : value)
| GenerateArticle (topic context : value)
| GenerateSocialPost (topic context : value)
| GenerateClassOutline (topic context : value)
| GenerateReflection (topic context : value)
| GetPrompt (topic format context : value).

Definition call_method (v : variant) (c : ShayaContentClient) (m : client_method)
  : Prog value :=
  match m, v with
  | GetInfo, _ => getInfo c
  | Health, _ => health c
  | GetVoiceProfile, _ => getVoiceProfile c
  | GetFormats, _ => getFormats c
  | GetSystemPrompt, _ => getSystemPrompt c
  | Generate t f a p, JavaScript => JS.generate c t f a p
  | Generate t f a p, TypeScript => TS.generate c t f a p
  | GenerateArticle t x, JavaScript => JS.generateArticle c t x
  | GenerateArticle t x, TypeScript => TS.generateArticle c t x
  | GenerateSocialPost t x, JavaScript => JS.generateSocialPost c t x
  | GenerateSocialPost t x, TypeScript => TS.generateSocialPost c t x
  | GenerateClassOutline t x, JavaScript => JS.generateClassOutline c t x
  | GenerateClassOutline t x, TypeScript => TS.generateClassOutline c t x
  | GenerateReflection t x, JavaScript => JS.generateReflection c t x
  | GenerateReflection t x, TypeScript => TS.generateReflection c t x
  | GetPrompt t f x, JavaScript => JS.getPrompt c t f x
  | GetPrompt t f x, TypeScript => TS.getPrompt c t f x
  end.

(** The endpoint table of the service: the path and the HTTP method
    behind each client method ([None] is the GET that [fetch] defaults
    to). *)
Definition endpoint_of (m : client_method) : string :=
  match m with
  | GetInfo => "/"
  | Health => "/health"
  | GetVoiceProfile => "/voice-profile"
  | GetFormats => "/formats"
  | GetSystemPrompt => "/system-prompt"
  | _ => "/generate"
  end.

Definition http_method_of (m : client_method) : option string :=
  match m with
  | GetInfo | Health | GetVoiceProfile | GetFormats | GetSystemPrompt => None
  | _ => Some "POST"
  end.

(** The methods that hand back the [content] of the response rather
    than the response. *)
Definition returns_content (m : client_method) : bool :=
  match m with
  | GenerateArticle _ _ | GenerateSocialPost _ _ | GenerateClassOutline _ _
  | GenerateReflection _ _ | GetPrompt _ _ _ => true
  | _ => false
  end.

(** A thrown value that the [catch] block of the hook cannot turn into
    an [Error]: it is not one, and [String] throws on it. *)
Definition unprintable (t : thrown) : Prop :=
  exists v e, t = ThrowValue v /\ to_string v = inl e.

(** * Properties *)

(** ** Running composed programs *)

Section Run.
Context {A : Type} (fetch : FetchCall -> fetch_outcome).

Lemma run_bind {B : Type} (p : Prog A) (f : A -> Prog B) (s : HookState) :
  run fetch (bind p f) s =
  match run fetch p s with
  | (s1, calls1, inl t) => (s1, calls1, inl t)
  | (s1, calls1, inr a) =>
      match run fetch (f a) s1 with
      | (s2, calls2, r) => (s2, (calls1 ++ calls2)%list, r)
      end
  end.
Proof.
  revert s. induction p as [a|t|b k IH|e k IH|v k IH|c k IH]; intros s; simpl.
  - destruct (run fetch (f a) s) as [[s2 calls2] r]. reflexivity.
  - reflexivity.
  - apply IH.
  - apply IH.
  - apply IH.
  - rewrite IH. destruct (run fetch (k (fetch c)) s) as [[s1 calls1] [t|a]].
    + reflexivity.
    + destruct (run fetch (f a) s1) as [[s2 calls2] r]. reflexivity.
Qed.

Lemma run_try_catch (p : Prog A) (h : thrown -> Prog A) (s : HookState) :
  run fetch (try_catch p h) s =
  match run fetch p s with
  | (s1, calls1, inl t) =>
      match run fetch (h t) s1 with
      | (s2, calls2, r) => (s2, (calls1 ++ calls2)%list, r)
      end
  | (s1, calls1, inr a) => (s1, calls1, inr a)
  end.
Proof.
  revert s. induction p as [a|t|b k IH|e k IH|v k IH|c k IH]; intros s; simpl.
  - reflexivity.
  - destruct (run fetch (h t) s) as [[s2 calls2] r]. reflexivity.
  - apply IH.
  - apply IH.
  - apply IH.
  - rewrite IH. destruct (run fetch (k (fetch c)) s) as [[s1 calls1] [t|a]].
    + destruct (run fetch (h t) s1) as [[s2 calls2] r]. reflexivity.
    + reflexivity.
Qed.

(** The [finally] block of the hook only calls [setIsLoading(false)]. *)
Lemma run_finally_loading (p : Prog A) (s : HookState) :
  run fetch (finally p (SetIsLoading false (Ret tt))) s =
  match run fetch p s with
  | (s1, calls1, r) =>
      ({| isLoading := false; error := error s1; content := content s1 |},
       calls1, r)
  end.
Proof.
  revert s. induction p as [a|t|b k IH|e k IH|v k IH|c k IH]; intros s; simpl.
  - reflexivity.
  - reflexivity.
  - apply IH.
  - apply IH.
  - apply IH.
  - rewrite IH. destruct (run fetch (k (fetch c)) s) as [[s1 calls1] r].
    reflexivity.
Qed.

Lemma run_stateless (p : Prog A) (s : HookState) :
  stateless p -> final_state (run fetch p s) = s.
Proof.
  revert s. induction p as [a|t|b k IH|e k IH|v k IH|c k IH]; intros s Hp;
    simpl in *; try contradiction; try reflexivity.
  specialize (IH (fetch c) s (Hp (fetch c))).
  destruct (run fetch (k (fetch c)) s) as [[s1 calls1] r]. exact IH.
Qed.

(** The outcome and the calls of a stateless program do not depend on
    the hook state it is started in. *)
Lemma run_stateless_any (p : Prog A) (s s' : HookState) :
  stateless p ->
  dispatched (run fetch p s) = dispatched (run fetch p s') /\
  outcome (run fetch p s) = outcome (run fetch p s').
Proof.
  revert s s'. induction p as [a|t|b k IH|e k IH|v k IH|c k IH]; intros s s' Hp;
    simpl in *; try contradiction; try (split; reflexivity).
  specialize (IH (fetch c) s s' (Hp (fetch c))).
  destruct (run fetch (k (fetch c)) s) as [[s1 calls1] r].
  destruct (run fetch (k (fetch c)) s') as [[s1' calls1'] r'].
  unfold dispatched, outcome in *. simpl in *. destruct IH as [-> ->].
  split; reflexivity.
Qed.

End Run.

(** The frame of a tracked method, run: the state before the body has
    [isLoading] set and [error] cleared; a failure of the body is
    normalized, stored and thrown again; [isLoading] is reset last. *)
Lemma run_tracked {A : Type} (fetch : FetchCall -> fetch_outcome)
    (body : Prog A) (s : HookState) :
  run fetch (tracked body) s =
  match run fetch body {| isLoading := true; error := None; content := content s |} with
  | (s1, calls, inl t) =>
      match normalize t with
      | inr e =>
          ({| isLoading := false; error := Some e; content := content s1 |},
           calls, inl (ThrowError e))
      | inl e =>
          ({| isLoading := false; error := error s1; content := content s1 |},
           calls, inl (ThrowError e))
      end
  | (s1, calls, inr a) =>
      ({| isLoading := false; error := error s1; content := content s1 |},
       calls, inr a)
  end.
Proof.
  unfold tracked. simpl. rewrite run_finally_loading, run_try_catch.
  destruct (run fetch body _) as [[s1 calls] [t|a]]; simpl.
  - destruct (normalize t); simpl; rewrite app_nil_r; reflexivity.
  - reflexivity.
Qed.

(** ** Conversions *)

(** The only error a conversion to a string throws. *)
Lemma to_string_error (v : value) (e : js_error) :
  to_string v = inl e -> e = TypeError_convert.
Proof.
  revert e. induction v as [| |b|n|x|items IH|props _] using value_induction;
    intros e; simpl; try discriminate.
  - destruct b; discriminate.
  - induction IH as [|y rest Hy _ IHrest]; simpl.
    + discriminate.
    + destruct (match y with
                | VUndefined | VNull => inr ""
                | _ => to_string y
                end) as [e0|t] eqn:Ey.
      * intros H. injection H as <-.
        destruct y; try discriminate Ey; exact (Hy _ Ey).
      * destruct (each _ rest) as [e1|ts]; simpl in *.
        -- intros H. injection H as <-. apply IHrest. reflexivity.
        -- discriminate.
  - destruct (has_prop "toString" props); [|discriminate].
    intros H. injection H as <-. reflexivity.
Qed.

(** ** The request client *)

Lemma request_stateless (c : ShayaContentClient) (endpoint : string)
    (options : RequestInit) :
  stateless (request c endpoint options).
Proof.
  simpl. intros [t|r]; simpl; [exact I|].
  unfold response_json_catch, response_json.
  destruct (ok r); simpl.
  - destruct (json r); exact I.
  - destruct (json r) as [t|v]; simpl.
    + exact I.
    + destruct (get_prop v "detail"); exact I.
Qed.

(** One run of [request]: a single call is dispatched, the hook state is
    not touched, and the promise settles as the response dictates. *)
Lemma run_request (fetch : FetchCall -> fetch_outcome) (c : ShayaContentClient)
    (endpoint : string) (options : RequestInit) (s : HookState) :
  run fetch (request c endpoint options) s =
  (s, [request_call c endpoint options],
   match fetch (request_call c endpoint options) with
   | inl t => inl t
   | inr r =>
       if ok r then json r
       else match json r with
            | inl _ => inl (ThrowError (new_Error "Unknown error"))
            | inr v =>
                match get_prop v "detail" with
                | inl e => inl (ThrowError e)
                | inr d => inl (ThrowError (failure_error d r))
                end
            end
   end).
Proof.
  simpl. destruct (fetch (request_call c endpoint options)) as [t|r]; simpl.
  - reflexivity.
  - unfold response_json_catch, response_json.
    destruct (ok r); simpl.
    + destruct (json r); reflexivity.
    + destruct (json r) as [t|v]; simpl.
      * reflexivity.
      * destruct (get_prop v "detail"); reflexivity.
Qed.

Lemma append_nil (s : string) : "" ++ s = s.
Proof. reflexivity. Qed.

Lemma append_cons (a : ascii) (s t : string) :
  String a s ++ t = String a (s ++ t).
Proof. reflexivity. Qed.

Lemma starts_with_app (p s : string) : starts_with p (p ++ s) = true.
Proof.
  induction p as [|a p IH].
  - reflexivity.
  - rewrite append_cons. simpl. rewrite Ascii.eqb_refl. exact IH.
Qed.

Lemma contains_starts_with (needle hay : string) :
  starts_with needle hay = true -> contains needle hay = true.
Proof. destruct hay; simpl; intros ->; reflexivity. Qed.

Lemma contains_app (pre needle post : string) :
  contains needle (pre ++ needle ++ post) = true.
Proof.
  induction pre as [|a pre IH].
  - rewrite append_nil. apply contains_starts_with, starts_with_app.
  - rewrite append_cons.
    change (starts_with needle (String a (pre ++ needle ++ post))
            || contains needle (pre ++ needle ++ post) = true).
    rewrite IH. apply orb_true_r.
Qed.

Lemma append_empty (s : string) : s ++ "" = s.
Proof.
  induction s as [|a s IH].
  - reflexivity.
  - rewrite append_cons, IH. reflexivity.
Qed.

Lemma contains_suffix (pre needle : string) :
  contains needle (pre ++ needle) = true.
Proof.
  pose proof (contains_app pre needle "") as H.
  rewrite append_empty in H. exact H.
Qed.

Lemma remove_trailing_slash_app (s : string) :
  remove_trailing_slash (s ++ "/") = s.
Proof.
  induction s as [|c s IH].
  - reflexivity.
  - rewrite append_cons. simpl. destruct (s ++ "/") eqn:E.
    + destruct s; discriminate E.
    + rewrite andb_false_r, IH. reflexivity.
Qed.

Lemma remove_trailing_slash_none (s : string) :
  ends_with_slash s = false -> remove_trailing_slash s = s.
Proof.
  induction s as [|c s IH]; simpl.
  - reflexivity.
  - destruct s as [|d s'].
    + simpl. intros ->. reflexivity.
    + rewrite andb_false_r. intros H. rewrite (IH H). reflexivity.
Qed.

(** After a slash has been removed, a second normalization removes
    another one only if the address ended in two slashes. *)
Lemma remove_trailing_slash_twice (s : string) :
  ends_with_slash s = false ->
  remove_trailing_slash (remove_trailing_slash (s ++ "/")) =
  remove_trailing_slash (s ++ "/").
Proof.
  intros H. rewrite remove_trailing_slash_app.
  apply remove_trailing_slash_none. exact H.
Qed.

Example remove_trailing_slash_double :
  remove_trailing_slash "https://x//" = "https://x/".
Proof. reflexivity. Qed.

(** The headers that go out with a request are those of [request_headers]. *)
Lemma dispatched_request (fetch : FetchCall -> fetch_outcome)
    (c : ShayaContentClient) (endpoint : string) (options : RequestInit)
    (s : HookState) :
  dispatched (run fetch (request c endpoint options) s) =
  [request_call c endpoint options].
Proof. rewrite run_request. reflexivity. Qed.

Lemma request_headers_caller (c : ShayaContentClient) (options : RequestInit)
    (h : string) (v : string) :
  default ∅ (headers options) !! h = Some v ->
  h <> "X-API-Key" \/ configured_key c = None ->
  request_headers c options !! h = Some v.
Proof.
  intros Hv Hk. unfold request_headers.
  assert (Hs : (default ∅ (headers options)
                ∪ ({[ "Content-Type" := "application/json" ]} : gmap string string))
               !! h = Some v)
    by (apply lookup_union_Some_l; exact Hv).
  destruct (configured_key c) as [k|] eqn:Ek.
  - destruct Hk as [Hne|Hnone]; [|discriminate Hnone].
    rewrite lookup_insert_ne; [exact Hs|congruence].
  - exact Hs.
Qed.

(** C1 (as stated, refuted): on a client constructed with a credential,
    a caller who supplies its own [X-API-Key] does not see its value
    dispatched; the configured credential goes out instead. *)
Lemma caller_api_key_overridden :
  let c := new_client "https://api.example.com" (Some "secret") in
  let options := {| method := None; body := None;
                    headers := Some {[ "X-API-Key" := "mine" ]} |} in
  exists call sent,
    dispatched (run (always {| status := 200; json := inr VNull |})
                  (request c "/health" options) initial_state) = [call] /\
    headers (init call) = Some sent /\
    default ∅ (headers options) !! "X-API-Key" = Some "mine" /\
    sent !! "X-API-Key" = Some "secret" /\
    sent !! "X-API-Key" <> Some "mine".
Proof.
  eexists. eexists. split; [reflexivity|]. split; [reflexivity|].
  split; [reflexivity|]. split; [reflexivity|]. discriminate.
Qed.

(** C1 (amended): every request, with or without caller headers,
    dispatches exactly one call, and its header map is fixed name by
    name: a caller-supplied header goes out with the caller's value,
    [Content-Type] included, except that [X-API-Key] carries the
    configured credential whenever the client has one (with none, it is
    the caller's, if any); [Content-Type] is [application/json] when the
    caller gives none; and no other name is touched. *)
Theorem request_headers_precedence (fetch : FetchCall -> fetch_outcome)
    (c : ShayaContentClient) (endpoint : string) (options : RequestInit)
    (s : HookState) :
  exists sent,
    dispatched (run fetch (request c endpoint options) s) =
      [ {| url := baseUrl c ++ endpoint;
           init := {| method := method options; body := body options;
                      headers := Some sent |} |} ] /\
    (forall h v,
       default ∅ (headers options) !! h = Some v ->
       h <> "X-API-Key" \/ configured_key c = None ->
       sent !! h = Some v) /\
    (forall k, configured_key c = Some k -> sent !! "X-API-Key" = Some k) /\
    (configured_key c = None ->
     sent !! "X-API-Key" = default ∅ (headers options) !! "X-API-Key") /\
    (default ∅ (headers options) !! "Content-Type" = None ->
     sent !! "Content-Type" = Some "application/json") /\
    (forall h, h <> "X-API-Key" -> h <> "Content-Type" ->
       sent !! h = default ∅ (headers options) !! h).
Proof.
  exists (request_headers c options).
  split; [apply dispatched_request|].
  assert (Hspread : forall h,
            (default ∅ (headers options)
             ∪ ({[ "Content-Type" := "application/json" ]} : gmap string string))
            !! h
            = match default ∅ (headers options) !! h with
              | Some v => Some v
              | None => if decide (h = "Content-Type")
                        then Some "application/json" else None
              end).
  { intros h. rewrite lookup_union.
    destruct (default ∅ (headers options) !! h) as [v|] eqn:E.
    - destruct (({[ "Content-Type" := "application/json" ]}
                 : gmap string string) !! h); reflexivity.
    - destruct (decide (h = "Content-Type")) as [-> | Hne].
      + rewrite lookup_singleton_eq. reflexivity.
      + rewrite lookup_singleton_ne by congruence. reflexivity. }
  split; [|split; [|split; [|split]]].
  - intros h v Hv Hk. apply request_headers_caller; assumption.
  - intros k Hk. unfold request_headers. rewrite Hk. apply lookup_insert_eq.
  - intros Hnone. unfold request_headers. rewrite Hnone, Hspread.
    destruct (default ∅ (headers options) !! "X-API-Key"); [reflexivity|].
    destruct (decide ("X-API-Key" = "Content-Type")); [discriminate|reflexivity].
  - intros Hnone. unfold request_headers.
    assert (Hs := Hspread "Content-Type"). rewrite Hnone in Hs.
    destruct (decide ("Content-Type" = "Content-Type")); [|contradiction].
    destruct (configured_key c) as [k|].
    + rewrite lookup_insert_ne; [exact Hs|discriminate].
    + exact Hs.
  - intros h Hx Hc. unfold request_headers.
    assert (Hs := Hspread h).
    destruct (decide (h = "Content-Type")); [contradiction|].
    destruct (configured_key c) as [k|].
    + rewrite lookup_insert_ne by congruence. rewrite Hs.
      destruct (default ∅ (headers options) !! h); reflexivity.
    + rewrite Hs. destruct (default ∅ (headers options) !! h); reflexivity.
Qed.

Lemma request_headers_precedence_witness :
  exists sent,
    dispatched (run (always {| status := 200; json := inr VNull |})
                  (request (new_client "https://api.example.com/" (Some "secret"))
                     "/generate"
                     {| method := Some "POST"; body := None;
                        headers := Some {[ "Content-Type" := "text/plain" ]} |})
                  initial_state) =
      [ {| url := "https://api.example.com/generate";
           init := {| method := Some "POST"; body := None;
                      headers := Some sent |} |} ] /\
    sent !! "Content-Type" = Some "text/plain" /\
    sent !! "X-API-Key" = Some "secret".
Proof.
  destruct (request_headers_precedence
              (always {| status := 200; json := inr VNull |})
              (new_client "https://api.example.com/" (Some "secret"))
              "/generate"
              {| method := Some "POST"; body := None;
                 headers := Some {[ "Content-Type" := "text/plain" ]} |}
              initial_state)
    as (sent & Hcalls & Hcaller & Hkey & _).
  exists sent. split; [exact Hcalls|]. split.
  - apply (Hcaller "Content-Type" "text/plain"); [reflexivity|].
    left. discriminate.
  - apply Hkey. reflexivity.
Defined.

(** C2 (as stated, refuted): a 500 response whose body is not JSON makes
    [request] throw an error whose message is the fixed text of the
    [catch] fallback, in which the status code does not occur. *)
Lemma unparsable_body_message_lacks_status :
  let r := {| status := 500;
              json := inl (ThrowError {| name := "SyntaxError";
                                         message := "Unexpected end of JSON input" |}) |} in
  exists e,
    ok r = false /\
    outcome (run (always r)
               (request (new_client "https://api.example.com" None)
                  "/generate" no_options) initial_state) = inl (ThrowError e) /\
    message e = "Unknown error" /\
    contains (pretty (status r)) (message e) = false.
Proof.
  eexists. split; [reflexivity|]. split; [reflexivity|].
  split; [reflexivity|]. vm_compute. reflexivity.
Qed.

(** C2 (amended): for a response outside the 2xx range whose body cannot
    be parsed as JSON, the error thrown by [request] has exactly the
    message [Unknown error]; the message holds the numeric status code,
    as [HTTP <status>], when the body parses to an object whose [detail]
    is missing or empty. *)
Theorem request_failure_fallback (fetch : FetchCall -> fetch_outcome)
    (c : ShayaContentClient) (endpoint : string) (options : RequestInit)
    (s : HookState) (r : Response) :
  fetch (request_call c endpoint options) = inr r ->
  ok r = false ->
  (forall t, json r = inl t ->
     outcome (run fetch (request c endpoint options) s) =
       inl (ThrowError (new_Error "Unknown error"))) /\
  (forall props, json r = inr (VObj props) ->
     lookup_prop "detail" props = VUndefined \/
     lookup_prop "detail" props = VStr "" ->
     exists e,
       outcome (run fetch (request c endpoint options) s) = inl (ThrowError e) /\
       message e = "HTTP " ++ pretty (status r) /\
       contains (pretty (status r)) (message e) = true).
Proof.
  intros Hfetch Hok. split.
  - intros t Hjson. rewrite run_request. unfold outcome. simpl.
    rewrite Hfetch, Hok, Hjson. reflexivity.
  - intros props Hjson Hdetail.
    exists (new_Error ("HTTP " ++ pretty (status r))).
    split; [|split].
    + rewrite run_request. unfold outcome. simpl.
      rewrite Hfetch, Hok, Hjson. simpl.
      destruct Hdetail as [-> | ->]; reflexivity.
    + reflexivity.
    + apply contains_suffix.
Qed.

Lemma request_failure_fallback_witness :
  outcome (run (always {| status := 502; json := inl (ThrowValue VUndefined) |})
             (request (new_client "https://api.example.com" None)
                "/formats" no_options) initial_state) =
    inl (ThrowError (new_Error "Unknown error")).
Proof.
  apply (proj1 (request_failure_fallback
                  (always {| status := 502; json := inl (ThrowValue VUndefined) |})
                  (new_client "https://api.example.com" None)
                  "/formats" no_options initial_state
                  {| status := 502; json := inl (ThrowValue VUndefined) |}
                  eq_refl eq_refl) (ThrowValue VUndefined)).
  reflexivity.
Defined.

(** C4 (as stated, refuted): a 500 response with the JSON body
    [{detail: ''}] has a [detail] field, yet the message of the error
    thrown is [HTTP 500] and not the empty string. *)
Lemma empty_detail_not_the_message :
  let r := {| status := 500; json := inr (VObj [("detail", VStr "")]) |} in
  exists e,
    ok r = false /\
    outcome (run (always r)
               (request (new_client "https://api.example.com" None)
                  "/generate" no_options) initial_state) = inl (ThrowError e) /\
    message e = "HTTP 500" /\
    message e <> "".
Proof.
  eexists. split; [reflexivity|]. split; [reflexivity|].
  split; [vm_compute; reflexivity|]. vm_compute. discriminate.
Qed.

(** C4 (amended): for a response outside the 2xx range whose body parses
    as a JSON object with a [detail] field that is a non-empty string D,
    the error thrown by [request] has message exactly D. *)
Theorem request_failure_detail (fetch : FetchCall -> fetch_outcome)
    (c : ShayaContentClient) (endpoint : string) (options : RequestInit)
    (s : HookState) (r : Response) (props : list (string * value))
    (D : string) :
  fetch (request_call c endpoint options) = inr r ->
  ok r = false ->
  json r = inr (VObj props) ->
  lookup_prop "detail" props = VStr D ->
  D <> "" ->
  outcome (run fetch (request c endpoint options) s) =
    inl (ThrowError (new_Error D)).
Proof.
  intros Hfetch Hok Hjson Hdetail HD.
  rewrite run_request. unfold outcome. simpl.
  rewrite Hfetch, Hok, Hjson. simpl. rewrite Hdetail.
  unfold failure_error, js_or. simpl.
  destruct (String.eqb D "") eqn:E.
  - apply String.eqb_eq in E. contradiction.
  - reflexivity.
Qed.

Lemma request_failure_detail_witness :
  outcome (run (always {| status := 401;
                          json := inr (VObj [("detail", VStr "Invalid API key")]) |})
             (request (new_client "https://api.example.com/" (Some "k"))
                "/generate" no_options) initial_state) =
    inl (ThrowError (new_Error "Invalid API key")).
Proof.
  apply (request_failure_detail
           (always {| status := 401;
                      json := inr (VObj [("detail", VStr "Invalid API key")]) |})
           (new_client "https://api.example.com/" (Some "k"))
           "/generate" no_options initial_state
           {| status := 401;
              json := inr (VObj [("detail", VStr "Invalid API key")]) |}
           [("detail", VStr "Invalid API key")] "Invalid API key");
    try reflexivity.
  discriminate.
Defined.

(** C7: the constructor removes exactly one trailing slash, and removes
    nothing from an address without one; hence a client constructed with
    an address and one constructed with that address followed by a slash
    dispatch to the same URL for every endpoint and every options, and
    normalizing the normalized address again changes nothing. *)
Theorem base_address_normalization (x : string) (key : option string)
    (endpoint : string) (options : RequestInit) :
  ends_with_slash x = false ->
  (forall s, remove_trailing_slash (s ++ "/") = s) /\
  remove_trailing_slash x = x /\
  baseUrl (new_client (x ++ "/") key) = baseUrl (new_client x key) /\
  request_call (new_client (x ++ "/") key) endpoint options =
    request_call (new_client x key) endpoint options /\
  (forall fetch s,
     run fetch (request (new_client (x ++ "/") key) endpoint options) s =
     run fetch (request (new_client x key) endpoint options) s) /\
  remove_trailing_slash (baseUrl (new_client (x ++ "/") key)) =
    baseUrl (new_client (x ++ "/") key).
Proof.
  intros Hx.
  assert (Hc : new_client (x ++ "/") key = new_client x key).
  { unfold new_client.
    rewrite remove_trailing_slash_app, (remove_trailing_slash_none x Hx).
    reflexivity. }
  split; [exact remove_trailing_slash_app|].
  split; [exact (remove_trailing_slash_none x Hx)|].
  rewrite Hc. split; [reflexivity|]. split; [reflexivity|].
  split; [reflexivity|].
  unfold new_client. simpl.
  rewrite (remove_trailing_slash_none x Hx).
  exact (remove_trailing_slash_none x Hx).
Qed.

Lemma base_address_normalization_witness :
  url (request_call (new_client "https://x/" None) "/generate" no_options) =
  url (request_call (new_client "https://x" None) "/generate" no_options) /\
  url (request_call (new_client "https://x/" None) "/generate" no_options) =
  "https://x/generate".
Proof.
  split; [|reflexivity].
  destruct (base_address_normalization "https://x" None "/generate" no_options
              eq_refl) as (_ & _ & _ & Hcall & _).
  exact (f_equal url Hcall).
Defined.

(** ** [generate] and its shorthands *)

Lemma JS_generate_payload_typed (topic : string) (format : option ContentFormat)
    (additionalContext : option string) (promptOnly : option bool) :
  JS.generate_payload (VStr topic) (arg_format format)
    (arg_string additionalContext) (arg_bool promptOnly) =
  spec_payload topic format additionalContext promptOnly.
Proof.
  destruct format, additionalContext, promptOnly; reflexivity.
Qed.

Lemma TS_generate_payload_typed (topic : string) (format : option ContentFormat)
    (additionalContext : option string) (promptOnly : option bool) :
  TS.generate_payload (VStr topic) (arg_format format)
    (arg_string additionalContext) (arg_bool promptOnly) =
  spec_payload topic format additionalContext promptOnly.
Proof.
  destruct format, additionalContext as [ctx|], promptOnly; try reflexivity;
    unfold TS.generate_payload, spec_payload, js_or; simpl;
    destruct ctx; reflexivity.
Qed.

(** C3: for a topic, an optional format, an optional additional context
    and an optional prompt-only flag, [generate], in the JavaScript and
    in the TypeScript variant, dispatches exactly one call, a POST to
    [/generate] under the base address, whose body is the JSON text of
    [{topic, format, additional_context, prompt_only}] with the format
    defaulting to [article], the context to the empty string and the
    flag to [false]; the context in it is a string, neither [null] nor
    [undefined]. *)
Theorem generate_request_body (fetch : FetchCall -> fetch_outcome)
    (c : ShayaContentClient) (s : HookState) (topic : string)
    (format : option ContentFormat) (additionalContext : option string)
    (promptOnly : option bool) :
  let payload := spec_payload topic format additionalContext promptOnly in
  let expected :=
    [ {| url := baseUrl c ++ "/generate";
         init := {| method := Some "POST";
                    body := JSON_stringify payload;
                    headers := Some (request_headers c no_options) |} |} ] in
  dispatched (run fetch (JS.generate c (VStr topic) (arg_format format)
                           (arg_string additionalContext) (arg_bool promptOnly)) s)
    = expected /\
  dispatched (run fetch (TS.generate c (VStr topic) (arg_format format)
                           (arg_string additionalContext) (arg_bool promptOnly)) s)
    = expected /\
  is_Some (JSON_stringify payload) /\
  get_prop payload "additional_context" = inr (VStr (default "" additionalContext)) /\
  get_prop payload "additional_context" <> inr VNull /\
  get_prop payload "additional_context" <> inr VUndefined.
Proof.
  intros payload expected. unfold JS.generate, TS.generate.
  rewrite JS_generate_payload_typed, TS_generate_payload_typed.
  rewrite !dispatched_request.
  split; [reflexivity|]. split; [reflexivity|].
  split; [eexists; reflexivity|].
  split; [reflexivity|]. split; discriminate.
Qed.

(** The scenario of the specification: base address with a trailing
    slash, no credential, [generate('Finding inner peace', 'article')]. *)
Example generate_scenario :
  dispatched (run (always {| status := 200; json := inr VNull |})
                (JS.generate (new_client "https://api.example.com/" None)
                   (VStr "Finding inner peace") (VStr "article")
                   VUndefined VUndefined) initial_state) =
  [ {| url := "https://api.example.com/generate";
       init := {| method := Some "POST";
                  body := Some ("{" ++ quote "topic" ++ ":"
                                ++ quote "Finding inner peace" ++ ","
                                ++ quote "format" ++ ":" ++ quote "article" ++ ","
                                ++ quote "additional_context" ++ ":" ++ quote "" ++ ","
                                ++ quote "prompt_only" ++ ":false}");
                  headers := Some {[ "Content-Type" := "application/json" ]} |} |} ].
Proof. vm_compute. reflexivity. Qed.

(** C10 (as stated, refuted): with [null] as the additional context the
    two variants dispatch different bodies; the JavaScript one sends
    [null], the TypeScript one the empty string. *)
Lemma generate_variants_differ_on_null :
  let c := new_client "https://api.example.com" None in
  let fetch := always {| status := 200; json := inr (VObj []) |} in
  exists js ts,
    dispatched (run fetch (JS.generate c (VStr "t") (VStr "article") VNull
                             (VBool false)) initial_state) = [js] /\
    dispatched (run fetch (TS.generate c (VStr "t") (VStr "article") VNull
                             (VBool false)) initial_state) = [ts] /\
    url js = url ts /\
    body (init js) <> body (init ts) /\
    JS.generate_payload (VStr "t") (VStr "article") VNull (VBool false) =
      VObj [("topic", VStr "t"); ("format", VStr "article");
            ("additional_context", VNull); ("prompt_only", VBool false)] /\
    TS.generate_payload (VStr "t") (VStr "article") VNull (VBool false) =
      VObj [("topic", VStr "t"); ("format", VStr "article");
            ("additional_context", VStr ""); ("prompt_only", VBool false)].
Proof.
  eexists. eexists. split; [reflexivity|]. split; [reflexivity|].
  split; [reflexivity|]. split; [vm_compute; discriminate|].
  split; reflexivity.
Qed.

(** C10 (amended): for every topic, format and prompt-only flag, and for
    an additional context that is absent ([undefined]) or a string, the
    [generate] methods of the two variants build the same payload, and
    so dispatch the same call (URL and body) and settle alike under
    every transport. *)
Theorem generate_variants_agree (c : ShayaContentClient)
    (topic format additionalContext promptOnly : value) :
  additionalContext = VUndefined \/ (exists ctx, additionalContext = VStr ctx) ->
  JS.generate_payload topic format additionalContext promptOnly =
    TS.generate_payload topic format additionalContext promptOnly /\
  forall fetch s,
    run fetch (JS.generate c topic format additionalContext promptOnly) s =
    run fetch (TS.generate c topic format additionalContext promptOnly) s.
Proof.
  intros Hctx.
  assert (Hp : JS.generate_payload topic format additionalContext promptOnly =
               TS.generate_payload topic format additionalContext promptOnly).
  { destruct Hctx as [-> | [ctx ->]].
    - reflexivity.
    - unfold JS.generate_payload, TS.generate_payload, js_or. simpl.
      destruct ctx; reflexivity. }
  split; [exact Hp|].
  intros fetch s. unfold JS.generate, TS.generate. rewrite Hp. reflexivity.
Qed.

Lemma generate_variants_agree_witness :
  run (always {| status := 200; json := inr (VObj [("content", VStr "text")]) |})
    (JS.generate (new_client "https://api.example.com" None)
       (VStr "Daily wisdom") (VStr "social_media") VUndefined VUndefined)
    initial_state =
  run (always {| status := 200; json := inr (VObj [("content", VStr "text")]) |})
    (TS.generate (new_client "https://api.example.com" None)
       (VStr "Daily wisdom") (VStr "social_media") VUndefined VUndefined)
    initial_state.
Proof.
  apply (generate_variants_agree (new_client "https://api.example.com" None)
           (VStr "Daily wisdom") (VStr "social_media") VUndefined VUndefined).
  left. reflexivity.
Defined.

Lemma run_lift_error {A : Type} (fetch : FetchCall -> fetch_outcome)
    (r : js_error + A) (s : HookState) :
  run fetch (lift_error r) s =
  (s, [], match r with inl e => inl (ThrowError e) | inr a => inr a end).
Proof. destruct r; reflexivity. Qed.

(** A shorthand is the run of what it awaits, with [content] projected. *)
Lemma run_content_of (fetch : FetchCall -> fetch_outcome) (gen : Prog value)
    (s : HookState) :
  run fetch (content_of gen) s = spec_content_field (run fetch gen s).
Proof.
  unfold content_of, spec_content_field, final_state, dispatched, outcome.
  rewrite run_bind.
  destruct (run fetch gen s) as [[s1 calls] [t|response]]; simpl.
  - reflexivity.
  - rewrite run_lift_error, app_nil_r. reflexivity.
Qed.

Lemma spec_content_field_projects (g : HookState * list FetchCall * settled value) :
  projects_content (spec_content_field g) g.
Proof.
  destruct g as [[s1 calls] r].
  unfold projects_content, spec_content_field, final_state, dispatched, outcome.
  simpl. split; [reflexivity|]. split; [reflexivity|]. split; [reflexivity|].
  split; [|split].
  - intros t ->. reflexivity.
  - intros props ->. reflexivity.
  - intros Hobj t. split.
    + destruct r as [t0|response]; [intros H; exact H|].
      destruct (Hobj response eq_refl) as [Hnull Hundef].
      destruct response; simpl; try discriminate; contradiction.
    + intros ->. reflexivity.
Qed.

Lemma JS_generate_context_default (c : ShayaContentClient)
    (topic format context promptOnly : value) :
  JS.generate c topic format (param_default context (VStr "")) promptOnly =
  JS.generate c topic format context promptOnly.
Proof.
  unfold JS.generate, JS.generate_payload. destruct context; reflexivity.
Qed.

(** C8: for every topic and context, in both variants, [generateArticle]
    run under any transport is the run of [generate(topic, 'article',
    context)] with the [content] field taken from its result: the same
    call is dispatched, a rejection of [generate] is the rejection of
    [generateArticle], a resolved object yields exactly its [content],
    and with [generate] resolving to objects only the two reject in
    exactly the same runs. *)
Theorem generateArticle_is_generate_content
    (fetch : FetchCall -> fetch_outcome) (c : ShayaContentClient)
    (topic context : value) (s : HookState) :
  projects_content
    (run fetch (JS.generateArticle c topic context) s)
    (run fetch (JS.generate c topic (VStr "article") context VUndefined) s) /\
  projects_content
    (run fetch (TS.generateArticle c topic context) s)
    (run fetch (TS.generate c topic (VStr "article") context VUndefined) s).
Proof.
  split.
  - unfold JS.generateArticle. cbv zeta.
    rewrite run_content_of, JS_generate_context_default.
    apply spec_content_field_projects.
  - unfold TS.generateArticle. rewrite run_content_of.
    apply spec_content_field_projects.
Qed.

(** The scenario of the specification: the server answers 200 with the
    generated object; [generate] resolves to it and [generateArticle] to
    its [content] alone. *)
Lemma generateArticle_is_generate_content_witness :
  let reply := VObj [("content", VStr "..."); ("format", VStr "article");
                     ("topic", VStr "Finding inner peace");
                     ("prompt_only", VBool false)] in
  let fetch := always {| status := 200; json := inr reply |} in
  let c := new_client "https://api.example.com/" None in
  outcome (run fetch (JS.generate c (VStr "Finding inner peace") (VStr "article")
                        VUndefined VUndefined) initial_state) = inr reply /\
  outcome (run fetch (JS.generateArticle c (VStr "Finding inner peace") VUndefined)
             initial_state) = inr (VStr "...") /\
  forall t,
    outcome (run fetch (TS.generateArticle c (VStr "Finding inner peace") VUndefined)
               initial_state) = inl t <->
    outcome (run fetch (TS.generate c (VStr "Finding inner peace") (VStr "article")
                          VUndefined VUndefined) initial_state) = inl t.
Proof.
  intros reply fetch c.
  destruct (generateArticle_is_generate_content fetch c
              (VStr "Finding inner peace") VUndefined initial_state)
    as [(_ & _ & _ & _ & Hjs & _) (_ & _ & _ & _ & _ & Hts)].
  split; [reflexivity|]. split.
  - apply (Hjs [("content", VStr "..."); ("format", VStr "article");
                ("topic", VStr "Finding inner peace");
                ("prompt_only", VBool false)]).
    reflexivity.
  - apply Hts. intros r Hr. vm_compute in Hr.
    injection Hr as <-. split; discriminate.
Defined.

(** ** The lifecycle adapter *)

(** How a rejection of the awaited call leaves a tracked method. *)
Lemma run_tracked_rejected {A : Type} (s : HookState) (calls : list FetchCall)
    (t0 : thrown) :
  match normalize t0 with
  | inr e =>
      ({| isLoading := false; error := Some e; content := content s |},
       calls, @inl thrown A (ThrowError e))
  | inl e =>
      ({| isLoading := false; error := None; content := content s |},
       calls, inl (ThrowError e))
  end =
  match normalize t0 with
  | inr e => (settled_failure s e, calls, inl (ThrowError e))
  | inl e =>
      ({| isLoading := false; error := None; content := content s |},
       calls, inl (ThrowError e))
  end.
Proof. destruct (normalize t0); reflexivity. Qed.

(** A tracked method that stores the [content] of the response. *)
Lemma run_tracked_storing (fetch : FetchCall -> fetch_outcome)
    (c : ShayaContentClient) (endpoint : string) (options : RequestInit)
    (ret : value -> value -> value) (s : HookState) :
  let u := run fetch (request c endpoint options) s in
  run fetch
    (tracked (response <- request c endpoint options ;;
              content <- lift_error (get_prop response "content") ;;
              SetContent content (Ret (ret response content)))%prog) s =
  match outcome u with
  | inl t0 =>
      match normalize t0 with
      | inr e => (settled_failure s e, dispatched u, inl (ThrowError e))
      | inl e =>
          ({| isLoading := false; error := None; content := content s |},
           dispatched u, inl (ThrowError e))
      end
  | inr response =>
      match get_prop response "content" with
      | inl e => (settled_failure s e, dispatched u, inl (ThrowError e))
      | inr v => (settled_success s (Some v), dispatched u, inr (ret response v))
      end
  end.
Proof.
  intros u. subst u. rewrite run_tracked, run_bind, !run_request.
  unfold outcome, dispatched. simpl.
  match goal with
  | |- context [match ?x with inl t => (_, _, inl t) | inr a => _ end] =>
      destruct x as [t0|response]
  end.
  - apply (run_tracked_rejected s).
  - rewrite run_bind, run_lift_error.
    destruct (get_prop response "content") as [e|v]; reflexivity.
Qed.

(** A tracked method that only passes the response on. *)
Lemma run_tracked_plain (fetch : FetchCall -> fetch_outcome)
    (c : ShayaContentClient) (endpoint : string) (options : RequestInit)
    (s : HookState) :
  let u := run fetch (request c endpoint options) s in
  run fetch (tracked (request c endpoint options)) s =
  match outcome u with
  | inl t0 =>
      match normalize t0 with
      | inr e => (settled_failure s e, dispatched u, inl (ThrowError e))
      | inl e =>
          ({| isLoading := false; error := None; content := content s |},
           dispatched u, inl (ThrowError e))
      end
  | inr response => (settled_success s None, dispatched u, inr response)
  end.
Proof.
  intros u. subst u. rewrite run_tracked, !run_request.
  unfold outcome, dispatched. simpl.
  match goal with
  | |- context [match ?x with inl t => _ | inr a => _ end] =>
      destruct x as [t0|response]
  end.
  - apply (run_tracked_rejected s).
  - reflexivity.
Qed.

(** A shorthand of the hook awaits the hook's [generate] and projects
    the [content] that [generate] has just read and stored. *)
Lemma run_hook_shorthand (fetch : FetchCall -> fetch_outcome)
    (options : UseShayaContentOptions) (topic format context : value)
    (s : HookState) :
  let u := run fetch (TS.generate (useShayaContent.client options) topic
                        (param_default format (VStr "article")) context
                        VUndefined) s in
  run fetch (content_of (useShayaContent.generate options topic format context)) s =
  match outcome u with
  | inl t0 =>
      match normalize t0 with
      | inr e => (settled_failure s e, dispatched u, inl (ThrowError e))
      | inl e =>
          ({| isLoading := false; error := None; content := content s |},
           dispatched u, inl (ThrowError e))
      end
  | inr response =>
      match get_prop response "content" with
      | inl e => (settled_failure s e, dispatched u, inl (ThrowError e))
      | inr v => (settled_success s (Some v), dispatched u, inr v)
      end
  end.
Proof.
  intros u. subst u. rewrite run_content_of.
  unfold useShayaContent.generate, TS.generate. cbv zeta.
  rewrite (run_tracked_storing fetch _ _ _ (fun response _ => response)).
  cbv zeta. unfold spec_content_field.
  destruct (outcome (run fetch (request _ _ _) s)) as [t0|response].
  - destruct (normalize t0); reflexivity.
  - destruct (get_prop response "content") as [e|v] eqn:E.
    + reflexivity.
    + unfold outcome, final_state, dispatched. simpl. rewrite E. reflexivity.
Qed.

(** Every tracked method follows the lifecycle of the specification. *)
Lemma run_invoke (fetch : FetchCall -> fetch_outcome)
    (options : UseShayaContentOptions) (t : tracked_call) (s : HookState) :
  run fetch (invoke options t) s =
  lifecycle t s (run fetch (underlying options t) s).
Proof.
  destruct t as [topic format ctx|topic ctx|topic ctx|topic ctx|topic ctx
                |topic format ctx| |]; unfold invoke, underlying, lifecycle;
    cbv zeta.
  - unfold useShayaContent.generate, TS.generate. cbv zeta.
    rewrite (run_tracked_storing fetch _ _ _ (fun response _ => response)).
    reflexivity.
  - apply (run_hook_shorthand fetch options topic (VStr "article") ctx s).
  - apply (run_hook_shorthand fetch options topic (VStr "social_media") ctx s).
  - apply (run_hook_shorthand fetch options topic (VStr "class_outline") ctx s).
  - apply (run_hook_shorthand fetch options topic (VStr "short_reflection") ctx s).
  - unfold useShayaContent.getPrompt, TS.generate. cbv zeta.
    rewrite (run_tracked_storing fetch _ _ _ (fun _ content => content)).
    reflexivity.
  - apply run_tracked_plain.
  - apply run_tracked_plain.
Qed.


Lemma normalize_unprintable (t : thrown) (e : js_error) :
  normalize t = inl e -> unprintable t.
Proof.
  destruct t as [e0|v]; simpl; [discriminate|].
  destruct (to_string v) as [e1|msg] eqn:E; [|discriminate].
  intros _. exists v, e1. split; [reflexivity|exact E].
Qed.

Lemma normalize_printable (t : thrown) :
  ~ unprintable t -> exists e, normalize t = inr e.
Proof.
  intros H. destruct (normalize t) as [e|e] eqn:E.
  - exfalso. apply H. exact (normalize_unprintable t e E).
  - exists e. reflexivity.
Qed.




(** C6: from every prior state, a tracked method runs up to its first
    await with no failure; there the call is dispatched and not yet
    settled, [isLoading] is [true] and [error] is [null] (and [content]
    is still the prior one). *)
Theorem tracked_call_in_flight (options : UseShayaContentOptions)
    (t : tracked_call) (s : HookState) :
  exists s' call,
    until_await (invoke options t) s = Pending s' call /\
    isLoading s' = true /\
    error s' = None /\
    content s' = content s /\
    s' = in_flight s /\
    forall fetch, dispatched (run fetch (invoke options t) s) = [call].
Proof.
  destruct t as [topic format ctx|topic ctx|topic ctx|topic ctx|topic ctx
                |topic format ctx| |];
    eexists; eexists; (split; [reflexivity|]);
    (split; [reflexivity|]); (split; [reflexivity|]);
    (split; [reflexivity|]); (split; [reflexivity|]);
    intros fetch; rewrite run_invoke; unfold lifecycle, underlying;
    cbv zeta; unfold TS.generate, getVoiceProfile, getFormats;
    rewrite run_request; unfold outcome, dispatched; simpl;
    repeat match goal with
           | |- context [match ?x with inl _ => _ | inr _ => _ end] =>
               destruct x
           end; reflexivity.
Qed.

Example in_flight_after_failure :
  until_await
    (invoke {| opt_baseUrl := "https://api.example.com"; opt_apiKey := None |}
       CallGetVoiceProfile)
    {| isLoading := false; error := Some (new_Error "Invalid API key");
       content := VStr "earlier" |} =
  Pending {| isLoading := true; error := None; content := VStr "earlier" |}
    {| url := "https://api.example.com/voice-profile";
       init := {| method := None; body := None;
                  headers := Some {[ "Content-Type" := "application/json" ]} |} |}.
Proof. vm_compute. reflexivity. Qed.

(** C9: in every state, [clearError] sets [error] to [null] and leaves
    [content] and [isLoading] as they are, and [clearContent] sets
    [content] to [null] and leaves [error] and [isLoading] as they are;
    neither awaits or dispatches anything, nor can it fail. *)
Theorem clear_operations (fetch : FetchCall -> fetch_outcome) (s : HookState) :
  run fetch useShayaContent.clearError s =
    ({| isLoading := isLoading s; error := None; content := content s |},
     [], inr tt) /\
  run fetch useShayaContent.clearContent s =
    ({| isLoading := isLoading s; error := error s; content := VNull |},
     [], inr tt) /\
  until_await useShayaContent.clearError s =
    Completed {| isLoading := isLoading s; error := None; content := content s |}
      (inr tt) /\
  until_await useShayaContent.clearContent s =
    Completed {| isLoading := isLoading s; error := error s; content := VNull |}
      (inr tt).
Proof. repeat split. Qed.

Example stringify_scenario :
  JSON_stringify (VObj [("topic", VStr "a\b"); ("n", VNum (nonzero "-12"));
                        ("skip", VUndefined);
                        ("list", VArr [VNull; VUndefined; VBool true])])
  = Some ("{" ++ quote "topic" ++ ":" ++ dquote ++ "a\\b" ++ dquote ++ ","
          ++ quote "n" ++ ":-12,"
          ++ quote "list" ++ ":[null,null,true]}").
Proof. vm_compute. reflexivity. Qed.


(** * Further properties of the client *)

(** ** [request]: the paths through one call *)

(** X1: A response in the 2xx range: [request] settles exactly as
    [response.json()] does, with the parsed value as it is or with the
    rejection of the parser, after a single call and with the hook state
    untouched. *)
Theorem request_success (fetch : FetchCall -> fetch_outcome)
    (c : ShayaContentClient) (endpoint : string) (options : RequestInit)
    (s : HookState) (r : Response) :
  fetch (request_call c endpoint options) = inr r ->
  ok r = true ->
  run fetch (request c endpoint options) s =
    (s, [request_call c endpoint options], json r).
Proof.
  intros Hfetch Hok. rewrite run_request, Hfetch, Hok. reflexivity.
Qed.

Lemma request_success_witness :
  run (always {| status := 204; json := inr (VArr [VNum (nonzero "1.5"); VStr "a"]) |})
    (request (new_client "https://api.example.com" None) "/formats" no_options)
    initial_state =
  (initial_state,
   [request_call (new_client "https://api.example.com" None) "/formats" no_options],
   inr (VArr [VNum (nonzero "1.5"); VStr "a"])).
Proof.
  apply (request_success
           (always {| status := 204; json := inr (VArr [VNum (nonzero "1.5"); VStr "a"]) |})
           (new_client "https://api.example.com" None) "/formats" no_options
           initial_state
           {| status := 204; json := inr (VArr [VNum (nonzero "1.5"); VStr "a"]) |});
    reflexivity.
Defined.

(** X2: A rejection of [fetch] itself passes through [request] unchanged:
    it is neither wrapped nor retried. *)
Theorem request_transport_failure (fetch : FetchCall -> fetch_outcome)
    (c : ShayaContentClient) (endpoint : string) (options : RequestInit)
    (s : HookState) (t : thrown) :
  fetch (request_call c endpoint options) = inl t ->
  run fetch (request c endpoint options) s =
    (s, [request_call c endpoint options], inl t).
Proof.
  intros Hfetch. rewrite run_request, Hfetch. reflexivity.
Qed.

Lemma request_transport_failure_witness :
  run (fun _ => inl (ThrowValue (VStr "offline")))
    (request (new_client "https://api.example.com" None) "/health" no_options)
    initial_state =
  (initial_state,
   [request_call (new_client "https://api.example.com" None) "/health" no_options],
   inl (ThrowValue (VStr "offline"))).
Proof.
  apply (request_transport_failure (fun _ => inl (ThrowValue (VStr "offline")))
           (new_client "https://api.example.com" None) "/health" no_options
           initial_state (ThrowValue (VStr "offline"))).
  reflexivity.
Defined.

(** X3: A response outside the 2xx range never resolves, whatever its body:
    [request] rejects, and what it throws is an [Error] object. *)
Theorem request_not_ok_rejects (fetch : FetchCall -> fetch_outcome)
    (c : ShayaContentClient) (endpoint : string) (options : RequestInit)
    (s : HookState) (r : Response) :
  fetch (request_call c endpoint options) = inr r ->
  ok r = false ->
  exists e, outcome (run fetch (request c endpoint options) s) =
              inl (ThrowError e).
Proof.
  intros Hfetch Hok. rewrite run_request, Hfetch, Hok. unfold outcome. simpl.
  destruct (json r) as [t|v]; [eexists; reflexivity|].
  destruct (get_prop v "detail"); eexists; reflexivity.
Qed.

Lemma request_not_ok_rejects_witness :
  exists e,
    outcome (run (always {| status := 304; json := inr (VNum (nonzero "7")) |})
               (request (new_client "https://api.example.com" None) "/" no_options)
               initial_state) = inl (ThrowError e).
Proof.
  apply (request_not_ok_rejects (always {| status := 304; json := inr (VNum (nonzero "7")) |})
           (new_client "https://api.example.com" None) "/" no_options
           initial_state {| status := 304; json := inr (VNum (nonzero "7")) |});
    reflexivity.
Defined.

(** X4: The error for a response outside the 2xx range whose body parses
    to anything but [null]: when [detail] is missing or falsy its
    message is [HTTP <status>]; when [detail] is truthy its message is
    [String(detail)] (a string stays as it is, a number prints as the
    runtime prints it, a list of plain objects as [[object Object]]
    entries); and when that conversion throws, the [TypeError] of the
    conversion is what [request] rejects with. *)
Theorem request_failure_message (fetch : FetchCall -> fetch_outcome)
    (c : ShayaContentClient) (endpoint : string) (options : RequestInit)
    (s : HookState) (r : Response) (v detail : value) :
  fetch (request_call c endpoint options) = inr r ->
  ok r = false ->
  json r = inr v ->
  get_prop v "detail" = inr detail ->
  let o := outcome (run fetch (request c endpoint options) s) in
  (truthy detail = false ->
   o = inl (ThrowError (new_Error ("HTTP " ++ pretty (status r))))) /\
  (forall msg, truthy detail = true -> to_string detail = inr msg ->
   o = inl (ThrowError (new_Error msg))) /\
  (forall e, truthy detail = true -> to_string detail = inl e ->
   o = inl (ThrowError e) /\ e = TypeError_convert).
Proof.
  intros Hfetch Hok Hjson Hdetail o. subst o.
  rewrite run_request, Hfetch, Hok, Hjson, Hdetail. unfold outcome. simpl.
  unfold failure_error, js_or. split; [|split].
  - intros ->. reflexivity.
  - intros msg -> ->. reflexivity.
  - intros e -> He. rewrite He. split; [reflexivity|].
    exact (to_string_error detail e He).
Qed.

(** The validation errors of the server carry a list in [detail]. *)
Lemma request_failure_message_witness :
  outcome (run (always {| status := 422;
                          json := inr (VObj [("detail",
                                    VArr [VObj [("msg", VStr "field required")];
                                          VNum (nonzero "1e+21")])]) |})
             (request (new_client "https://api.example.com" None) "/generate"
                no_options) initial_state) =
    inl (ThrowError (new_Error "[object Object],1e+21")).
Proof.
  apply (proj1 (proj2 (request_failure_message
           (always {| status := 422;
                      json := inr (VObj [("detail",
                                VArr [VObj [("msg", VStr "field required")];
                                      VNum (nonzero "1e+21")])]) |})
           (new_client "https://api.example.com" None) "/generate" no_options
           initial_state
           {| status := 422;
              json := inr (VObj [("detail",
                        VArr [VObj [("msg", VStr "field required")];
                              VNum (nonzero "1e+21")])]) |}
           (VObj [("detail",
              VArr [VObj [("msg", VStr "field required")];
                    VNum (nonzero "1e+21")])])
           (VArr [VObj [("msg", VStr "field required")];
                  VNum (nonzero "1e+21")])
           eq_refl eq_refl eq_refl eq_refl)));
    reflexivity.
Defined.

Example request_failure_unprintable_detail :
  outcome (run (always {| status := 400;
                          json := inr (VObj [("detail",
                                    VObj [("toString", VStr "x")])]) |})
             (request (new_client "https://api.example.com" None) "/generate"
                no_options) initial_state) =
    inl (ThrowError TypeError_convert).
Proof. reflexivity. Qed.

(** X5: A response outside the 2xx range whose body is the JSON [null]:
    reading [detail] fails, and [request] rejects with that [TypeError]
    in place of an error built from the detail or the status. *)
Theorem request_failure_null_body (fetch : FetchCall -> fetch_outcome)
    (c : ShayaContentClient) (endpoint : string) (options : RequestInit)
    (s : HookState) (r : Response) :
  fetch (request_call c endpoint options) = inr r ->
  ok r = false ->
  json r = inr VNull ->
  exists e,
    outcome (run fetch (request c endpoint options) s) = inl (ThrowError e) /\
    name e = "TypeError" /\
    e <> new_Error ("HTTP " ++ pretty (status r)).
Proof.
  intros Hfetch Hok Hjson.
  exists (TypeError_read "null" "detail"). split; [|split].
  - rewrite run_request, Hfetch, Hok, Hjson. reflexivity.
  - reflexivity.
  - intros H. apply (f_equal name) in H. discriminate H.
Qed.

Lemma request_failure_null_body_witness :
  exists e,
    outcome (run (always {| status := 500; json := inr VNull |})
               (request (new_client "https://api.example.com" None) "/generate"
                  no_options) initial_state) = inl (ThrowError e) /\
    name e = "TypeError" /\
    e <> new_Error ("HTTP " ++ pretty 500%N).
Proof.
  apply (request_failure_null_body (always {| status := 500; json := inr VNull |})
           (new_client "https://api.example.com" None) "/generate" no_options
           initial_state {| status := 500; json := inr VNull |});
    reflexivity.
Defined.

(** ** The header map *)

(** X6: The names in the header map that goes out: those the caller
    supplied, [Content-Type], and [X-API-Key] when a credential is
    configured; nothing else is ever added. *)
Theorem request_headers_names (c : ShayaContentClient) (options : RequestInit) :
  dom (request_headers c options) =
  dom (default ∅ (headers options)) ∪ {[ "Content-Type" ]}
  ∪ (match configured_key c with Some _ => {[ "X-API-Key" ]} | None => ∅ end).
Proof.
  unfold request_headers. destruct (configured_key c) as [k|].
  - rewrite dom_insert_L, dom_union_L, dom_singleton_L.
    apply set_eq. intros h. rewrite !elem_of_union. tauto.
  - rewrite dom_union_L, dom_singleton_L.
    apply set_eq. intros h. rewrite !elem_of_union, elem_of_empty. tauto.
Qed.

(** X7: A credential that is the empty string counts as none: the client
    dispatches the same calls as one constructed without a credential,
    and the [X-API-Key] that goes out, if any, is the caller's. *)
Theorem empty_credential_is_none (base endpoint : string) (key : option string)
    (options : RequestInit) :
  key = None \/ key = Some "" ->
  request_call (new_client base key) endpoint options =
    request_call (new_client base None) endpoint options /\
  request_headers (new_client base key) options !! "X-API-Key" =
    default ∅ (headers options) !! "X-API-Key".
Proof.
  intros Hkey.
  assert (Hnone : configured_key (new_client base key) = None)
    by (destruct Hkey as [-> | ->]; reflexivity).
  split.
  - unfold request_call, request_headers. rewrite Hnone. reflexivity.
  - unfold request_headers. rewrite Hnone.
    rewrite lookup_union, lookup_singleton_ne by discriminate.
    destruct (default ∅ (headers options) !! "X-API-Key"); reflexivity.
Qed.

Lemma empty_credential_is_none_witness :
  request_headers (new_client "https://api.example.com" (Some "")) no_options
    !! "X-API-Key" = None.
Proof.
  destruct (empty_credential_is_none "https://api.example.com" "/generate"
              (Some "") no_options) as [_ H]; [right; reflexivity|].
  rewrite H. reflexivity.
Defined.

(** ** The base address *)

Lemma remove_trailing_slash_length (s : string) :
  String.length (remove_trailing_slash s)
  + (if ends_with_slash s then 1 else 0) = String.length s.
Proof.
  induction s as [|c s IH].
  - reflexivity.
  - destruct s as [|d s'].
    + simpl. destruct (Ascii.eqb c "/"); reflexivity.
    + change (remove_trailing_slash (String c (String d s')))
        with (if Ascii.eqb c "/" && false then ""
              else String c (remove_trailing_slash (String d s'))).
      change (ends_with_slash (String c (String d s')))
        with (ends_with_slash (String d s')).
      rewrite andb_false_r.
      change (String.length (String c (remove_trailing_slash (String d s'))))
        with (S (String.length (remove_trailing_slash (String d s')))).
      change (String.length (String c (String d s')))
        with (S (String.length (String d s'))).
      lia.
Qed.

Lemma append_assoc (a b c : string) : (a ++ b) ++ c = a ++ b ++ c.
Proof.
  induction a as [|x a IH].
  - reflexivity.
  - rewrite !append_cons, IH. reflexivity.
Qed.

Lemma append_inj (p a b : string) : p ++ a = p ++ b -> a = b.
Proof.
  induction p as [|x p IH].
  - intros H. exact H.
  - rewrite !append_cons. intros H. injection H as H. exact (IH H).
Qed.

(** X8: The constructor changes a base address exactly when it ends in a
    slash, and then the address loses one character; an address without
    a trailing slash, the empty one included, is kept as it is. *)
Theorem constructor_changes_trailing_slash_only (base : string)
    (key : option string) :
  (baseUrl (new_client base key) = base <-> ends_with_slash base = false) /\
  String.length (baseUrl (new_client base key))
  = String.length base - (if ends_with_slash base then 1 else 0).
Proof.
  pose proof (remove_trailing_slash_length base) as Hlen.
  unfold new_client. simpl. split; [split|].
  - intros H. rewrite H in Hlen.
    destruct (ends_with_slash base); [lia|reflexivity].
  - apply remove_trailing_slash_none.
  - destruct (ends_with_slash base); lia.
Qed.

(** X9: Only the last slash goes: a base address that ends in two slashes
    keeps one, so the URL of an endpoint has a doubled slash at the
    joint, and constructing a client from the normalized address gives a
    different client. *)
Theorem constructor_keeps_second_slash (x : string) (key : option string)
    (endpoint : string) (options : RequestInit) :
  baseUrl (new_client (x ++ "//") key) = x ++ "/" /\
  url (request_call (new_client (x ++ "//") key) endpoint options)
  = x ++ "/" ++ endpoint /\
  new_client (baseUrl (new_client (x ++ "//") key)) key
  <> new_client (x ++ "//") key.
Proof.
  assert (Hb : baseUrl (new_client (x ++ "//") key) = x ++ "/").
  { unfold new_client. simpl.
    change "//" with ("/" ++ "/"). rewrite <- append_assoc.
    apply remove_trailing_slash_app. }
  split; [exact Hb|]. split.
  - change (baseUrl (new_client (x ++ "//") key) ++ endpoint
            = x ++ "/" ++ endpoint).
    rewrite Hb. apply append_assoc.
  - rewrite Hb. unfold new_client. rewrite remove_trailing_slash_app.
    intros H. apply (f_equal baseUrl) in H. simpl in H.
    change "//" with ("/" ++ "/") in H. rewrite <- append_assoc in H.
    rewrite remove_trailing_slash_app in H.
    apply (f_equal String.length) in H.
    rewrite <- (append_empty x) in H at 1.
    clear Hb. revert H. induction x as [|a x IH].
    + discriminate.
    + rewrite !append_cons. simpl. intros H. injection H as H. exact (IH H).
Qed.

Example constructor_edge_cases :
  baseUrl (new_client "" None) = "" /\
  baseUrl (new_client "/" None) = "" /\
  baseUrl (new_client "https://x/api" None) = "https://x/api" /\
  baseUrl (new_client "https://x/api/" None) = "https://x/api".
Proof. repeat split. Qed.

(** ** Every method of the client *)

(** Each method is one [request], for the shorthands followed by the
    reading of [content]. *)
Lemma call_method_shape (v : variant) (c : ShayaContentClient)
    (m : client_method) :
  exists options,
    call_method v c m =
      (if returns_content m
       then content_of (request c (endpoint_of m) options)
       else request c (endpoint_of m) options) /\
    method options = http_method_of m /\
    headers options = None /\
    (body options = None <-> http_method_of m = None).
Proof.
  destruct m, v; simpl; eexists;
    (split; [reflexivity|]); (split; [reflexivity|]); (split; [reflexivity|]);
    split; intros H; try reflexivity; try discriminate H.
Qed.

Lemma run_call_method (fetch : FetchCall -> fetch_outcome) (v : variant)
    (c : ShayaContentClient) (m : client_method) (s : HookState) :
  exists options,
    run fetch (call_method v c m) s =
      (if returns_content m
       then spec_content_field (run fetch (request c (endpoint_of m) options) s)
       else run fetch (request c (endpoint_of m) options) s) /\
    method options = http_method_of m /\
    headers options = None /\
    (body options = None <-> http_method_of m = None).
Proof.
  destruct (call_method_shape v c m) as (options & Hshape & Hrest).
  exists options. split; [|exact Hrest].
  rewrite Hshape. destruct (returns_content m); [apply run_content_of|reflexivity].
Qed.

(** X10: Whatever the server answers, a method of either variant dispatches
    exactly one call and leaves the hook state alone: the URL is the
    base address followed by the path of the endpoint table, the method
    is the table's, a body goes out with the POSTs only, and the headers
    are the defaults. *)
Theorem every_method_one_call (fetch : FetchCall -> fetch_outcome) (v : variant)
    (c : ShayaContentClient) (m : client_method) (s : HookState) :
  exists call,
    dispatched (run fetch (call_method v c m) s) = [call] /\
    final_state (run fetch (call_method v c m) s) = s /\
    url call = baseUrl c ++ endpoint_of m /\
    method (init call) = http_method_of m /\
    (body (init call) = None <-> http_method_of m = None) /\
    headers (init call) = Some (request_headers c no_options).
Proof.
  destruct (run_call_method fetch v c m s)
    as (options & Hrun & Hmethod & Hheaders & Hbody).
  exists (request_call c (endpoint_of m) options).
  rewrite Hrun.
  assert (Hd : dispatched (if returns_content m
                 then spec_content_field
                        (run fetch (request c (endpoint_of m) options) s)
                 else run fetch (request c (endpoint_of m) options) s)
               = [request_call c (endpoint_of m) options]).
  { destruct (returns_content m); rewrite run_request; reflexivity. }
  assert (Hs : final_state (if returns_content m
                 then spec_content_field
                        (run fetch (request c (endpoint_of m) options) s)
                 else run fetch (request c (endpoint_of m) options) s) = s).
  { destruct (returns_content m); rewrite run_request; reflexivity. }
  split; [exact Hd|]. split; [exact Hs|]. split; [reflexivity|].
  split; [exact Hmethod|]. split; [exact Hbody|].
  unfold request_call, request_headers. simpl. rewrite Hheaders. reflexivity.
Qed.

(** X11: When [fetch] rejects, every method rejects with the very same
    value. *)
Theorem every_method_transport_failure (fetch : FetchCall -> fetch_outcome)
    (v : variant) (c : ShayaContentClient) (m : client_method) (s : HookState)
    (t : thrown) :
  (forall call, fetch call = inl t) ->
  outcome (run fetch (call_method v c m) s) = inl t.
Proof.
  intros Hfetch.
  destruct (run_call_method fetch v c m s) as (options & Hrun & _).
  rewrite Hrun.
  destruct (returns_content m); rewrite run_request, Hfetch; reflexivity.
Qed.

Lemma every_method_transport_failure_witness :
  outcome (run (fun _ => inl (ThrowError {| name := "TypeError";
                                            message := "Failed to fetch" |}))
             (call_method JavaScript (new_client "https://api.example.com" None)
                (GenerateReflection (VStr "Gratitude") VUndefined))
             initial_state) =
    inl (ThrowError {| name := "TypeError"; message := "Failed to fetch" |}).
Proof.
  apply (every_method_transport_failure
           (fun _ => inl (ThrowError {| name := "TypeError";
                                        message := "Failed to fetch" |}))).
  intros call. reflexivity.
Defined.

(** X12: The second scenario of the specification, for every method: when
    the server answers outside the 2xx range with a JSON object whose
    [detail] is a non-empty string, the method rejects with an [Error]
    whose message is that string. *)
Theorem every_method_http_failure (fetch : FetchCall -> fetch_outcome)
    (v : variant) (c : ShayaContentClient) (m : client_method) (s : HookState)
    (r : Response) (props : list (string * value)) (D : string) :
  (forall call, fetch call = inr r) ->
  ok r = false ->
  json r = inr (VObj props) ->
  lookup_prop "detail" props = VStr D ->
  D <> "" ->
  outcome (run fetch (call_method v c m) s) = inl (ThrowError (new_Error D)).
Proof.
  intros Hfetch Hok Hjson Hdetail HD.
  assert (Hmsg : failure_error (VStr D) r = new_Error D).
  { unfold failure_error, js_or. simpl.
    destruct (String.eqb D "") eqn:E; [|reflexivity].
    apply String.eqb_eq in E. contradiction. }
  destruct (run_call_method fetch v c m s) as (options & Hrun & _).
  rewrite Hrun.
  destruct (returns_content m); rewrite run_request, Hfetch, Hok, Hjson;
    unfold spec_content_field, outcome; simpl; rewrite Hdetail, Hmsg;
    reflexivity.
Qed.

Lemma every_method_http_failure_witness :
  outcome (run (always {| status := 401;
                          json := inr (VObj [("detail", VStr "Invalid API key")]) |})
             (call_method TypeScript (new_client "https://api.example.com" None)
                (GetPrompt (VStr "Resilience") VUndefined VUndefined))
             initial_state) =
    inl (ThrowError (new_Error "Invalid API key")).
Proof.
  apply (every_method_http_failure
           (always {| status := 401;
                      json := inr (VObj [("detail", VStr "Invalid API key")]) |})
           TypeScript (new_client "https://api.example.com" None)
           (GetPrompt (VStr "Resilience") VUndefined VUndefined) initial_state
           {| status := 401;
              json := inr (VObj [("detail", VStr "Invalid API key")]) |}
           [("detail", VStr "Invalid API key")] "Invalid API key");
    try reflexivity.
  discriminate.
Defined.

(** X13: A method resolves only on a response in the 2xx range whose body
    parsed; it then hands back the parsed value, or for the shorthands
    and [getPrompt] what reading [content] from it gives. *)
Theorem every_method_resolves_on_2xx (fetch : FetchCall -> fetch_outcome)
    (v : variant) (c : ShayaContentClient) (m : client_method) (s : HookState)
    (result : value) :
  outcome (run fetch (call_method v c m) s) = inr result ->
  exists call r response,
    dispatched (run fetch (call_method v c m) s) = [call] /\
    fetch call = inr r /\
    ok r = true /\
    json r = inr response /\
    (if returns_content m
     then get_prop response "content" = inr result
     else result = response).
Proof.
  destruct (run_call_method fetch v c m s) as (options & Hrun & _).
  rewrite Hrun. clear Hrun.
  set (call := request_call c (endpoint_of m) options).
  assert (Hreq : forall response,
            outcome (run fetch (request c (endpoint_of m) options) s)
              = inr response ->
            exists r, fetch call = inr r /\ ok r = true /\ json r = inr response).
  { intros response. rewrite run_request. unfold outcome. simpl. fold call.
    destruct (fetch call) as [t|r]; [discriminate|].
    destruct (ok r) eqn:Hok.
    - intros H. exists r. split; [reflexivity|]. split; [exact Hok|exact H].
    - destruct (json r) as [t|w]; [discriminate|].
      destruct (get_prop w "detail"); discriminate. }
  assert (Hd : dispatched (run fetch (request c (endpoint_of m) options) s)
               = [call])
    by (rewrite run_request; reflexivity).
  revert Hreq Hd.
  generalize (run fetch (request c (endpoint_of m) options) s).
  intros [[s1 calls] o] Hreq Hd. unfold outcome, dispatched in *. simpl in *.
  destruct (returns_content m).
  - unfold spec_content_field, outcome, dispatched. simpl.
    destruct o as [t|response]; [discriminate|].
    destruct (get_prop response "content") as [e|w] eqn:Ec; [discriminate|].
    intros [= <-]. destruct (Hreq response eq_refl) as (r & Hf & Hok & Hj).
    exists call, r, response.
    split; [exact Hd|]. split; [exact Hf|]. split; [exact Hok|].
    split; [exact Hj|exact Ec].
  - intros H. destruct (Hreq result H) as (r & Hf & Hok & Hj).
    exists call, r, result.
    split; [exact Hd|]. split; [exact Hf|]. split; [exact Hok|].
    split; [exact Hj|reflexivity].
Qed.

Lemma every_method_resolves_on_2xx_witness :
  exists call r response,
    dispatched (run (always {| status := 200;
                               json := inr (VObj [("content", VStr "text")]) |})
                  (call_method JavaScript
                     (new_client "https://api.example.com" None)
                     (GenerateArticle (VStr "Hope") VUndefined)) initial_state)
      = [call] /\
    always {| status := 200; json := inr (VObj [("content", VStr "text")]) |} call
      = inr r /\
    ok r = true /\
    json r = inr response /\
    get_prop response "content" = inr (VStr "text").
Proof.
  apply (every_method_resolves_on_2xx
           (always {| status := 200;
                      json := inr (VObj [("content", VStr "text")]) |})
           JavaScript (new_client "https://api.example.com" None)
           (GenerateArticle (VStr "Hope") VUndefined) initial_state (VStr "text")).
  reflexivity.
Defined.

Lemma dispatched_urls (fetch : FetchCall -> fetch_outcome) (v : variant)
    (c : ShayaContentClient) (m : client_method) (s : HookState) :
  List.map url (dispatched (run fetch (call_method v c m) s)) =
  [baseUrl c ++ endpoint_of m].
Proof.
  destruct (run_call_method fetch v c m s) as (options & Hrun & _).
  rewrite Hrun. destruct (returns_content m); rewrite run_request; reflexivity.
Qed.

(** X14: Under any base address and transport, the calls dispatched by
    [getInfo], [health], [getVoiceProfile], [getFormats],
    [getSystemPrompt] and [generate] go to six different URLs; and for
    any two methods, of either variant, the URLs dispatched to are the
    same exactly when the two methods have the same endpoint path. *)
Theorem endpoints_distinct (fetch : FetchCall -> fetch_outcome) (v : variant)
    (c : ShayaContentClient) (s : HookState)
    (topic format additionalContext promptOnly : value) :
  NoDup (List.map url
           (dispatched (run fetch (call_method v c GetInfo) s)
            ++ dispatched (run fetch (call_method v c Health) s)
            ++ dispatched (run fetch (call_method v c GetVoiceProfile) s)
            ++ dispatched (run fetch (call_method v c GetFormats) s)
            ++ dispatched (run fetch (call_method v c GetSystemPrompt) s)
            ++ dispatched (run fetch
                 (call_method v c
                    (Generate topic format additionalContext promptOnly)) s))%list) /\
  forall v1 v2 m1 m2,
    List.map url (dispatched (run fetch (call_method v1 c m1) s)) =
    List.map url (dispatched (run fetch (call_method v2 c m2) s))
    <-> endpoint_of m1 = endpoint_of m2.
Proof.
  split.
  - rewrite !List.map_app, !dispatched_urls. simpl.
    repeat (apply NoDup_cons; split;
            [intros Hin;
             repeat (apply elem_of_cons in Hin as [Heq|Hin];
                     [apply append_inj in Heq; discriminate Heq|]);
             apply elem_of_nil in Hin; exact Hin|]).
    apply NoDup_nil. exact I.
  - intros v1 v2 m1 m2. rewrite !dispatched_urls. split.
    + intros H. injection H as H. exact (append_inj _ _ _ H).
    + intros ->. reflexivity.
Qed.

(** ** The shorthands and [getPrompt] *)

Lemma JS_generate_format_default (c : ShayaContentClient)
    (topic format context promptOnly : value) :
  JS.generate c topic (param_default format (VStr "article")) context promptOnly =
  JS.generate c topic format context promptOnly.
Proof.
  unfold JS.generate, JS.generate_payload. destruct format; reflexivity.
Qed.

Lemma TS_generate_format_default (c : ShayaContentClient)
    (topic format context promptOnly : value) :
  TS.generate c topic (param_default format (VStr "article")) context promptOnly =
  TS.generate c topic format context promptOnly.
Proof.
  unfold TS.generate, TS.generate_payload. destruct format; reflexivity.
Qed.

(** X15: The other three format shorthands, in both variants, are [generate]
    with their format and the [content] field read from its result,
    exactly as [generateArticle] is. *)
Theorem format_shorthands_are_generate_content
    (fetch : FetchCall -> fetch_outcome) (c : ShayaContentClient)
    (topic context : value) (s : HookState) :
  projects_content
    (run fetch (JS.generateSocialPost c topic context) s)
    (run fetch (JS.generate c topic (VStr "social_media") context VUndefined) s) /\
  projects_content
    (run fetch (JS.generateClassOutline c topic context) s)
    (run fetch (JS.generate c topic (VStr "class_outline") context VUndefined) s) /\
  projects_content
    (run fetch (JS.generateReflection c topic context) s)
    (run fetch (JS.generate c topic (VStr "short_reflection") context VUndefined) s) /\
  projects_content
    (run fetch (TS.generateSocialPost c topic context) s)
    (run fetch (TS.generate c topic (VStr "social_media") context VUndefined) s) /\
  projects_content
    (run fetch (TS.generateClassOutline c topic context) s)
    (run fetch (TS.generate c topic (VStr "class_outline") context VUndefined) s) /\
  projects_content
    (run fetch (TS.generateReflection c topic context) s)
    (run fetch (TS.generate c topic (VStr "short_reflection") context VUndefined) s).
Proof.
  unfold JS.generateSocialPost, JS.generateClassOutline, JS.generateReflection,
    TS.generateSocialPost, TS.generateClassOutline, TS.generateReflection.
  cbv zeta. rewrite !run_content_of, !JS_generate_context_default.
  do 5 (split; [apply spec_content_field_projects|]).
  apply spec_content_field_projects.
Qed.

(** X16: [getPrompt(topic, format, context)], in both variants, is
    [generate(topic, format, context, true)] with the [content] field
    read from its result: the body it sends has [prompt_only] set, and
    an absent format is [article]. *)
Theorem getPrompt_is_generate_prompt_only
    (fetch : FetchCall -> fetch_outcome) (c : ShayaContentClient)
    (topic format context : value) (s : HookState) :
  projects_content
    (run fetch (JS.getPrompt c topic format context) s)
    (run fetch (JS.generate c topic format context (VBool true)) s) /\
  projects_content
    (run fetch (TS.getPrompt c topic format context) s)
    (run fetch (TS.generate c topic format context (VBool true)) s) /\
  get_prop (JS.generate_payload topic format context (VBool true)) "prompt_only"
    = inr (VBool true) /\
  get_prop (TS.generate_payload topic format context (VBool true)) "prompt_only"
    = inr (VBool true).
Proof.
  unfold JS.getPrompt, TS.getPrompt. cbv zeta.
  rewrite !run_content_of, JS_generate_context_default,
    JS_generate_format_default, TS_generate_format_default.
  split; [apply spec_content_field_projects|].
  split; [apply spec_content_field_projects|].
  split; reflexivity.
Qed.

(** X17: In the TypeScript variant the [additional_context] of the payload is
    never [null] or [undefined], for any argument at all: a truthy
    argument is forwarded as it is, and every falsy one ([undefined],
    [null], [false], [0], the empty string) becomes the empty string. *)
Theorem TS_generate_context_normalized
    (topic format additionalContext promptOnly : value) :
  exists sent,
    get_prop (TS.generate_payload topic format additionalContext promptOnly)
      "additional_context" = inr sent /\
    sent = (if truthy additionalContext then additionalContext else VStr "") /\
    sent <> VNull /\
    sent <> VUndefined.
Proof.
  exists (js_or additionalContext (VStr "")).
  split; [reflexivity|]. split; [reflexivity|].
  unfold js_or.
  destruct additionalContext as [| |b|n|x|items|props]; simpl;
    try (split; discriminate).
  - destruct b; split; discriminate.
  - destruct (num_falsy n); split; discriminate.
  - destruct (String.eqb x ""); split; discriminate.
Qed.

(** X18: The two variants build the same payload exactly when the additional
    context is absent, truthy or the empty string; for [null], [false]
    and [0] they differ. *)
Theorem generate_payloads_agree_iff
    (topic format additionalContext promptOnly : value) :
  JS.generate_payload topic format additionalContext promptOnly =
    TS.generate_payload topic format additionalContext promptOnly
  <-> (additionalContext = VUndefined \/ truthy additionalContext = true
       \/ additionalContext = VStr "").
Proof.
  unfold JS.generate_payload, TS.generate_payload, js_or. split.
  - intros H. injection H as H. revert H.
    destruct additionalContext as [| |b|n|x|items|props]; simpl.
    + intros _. left. reflexivity.
    + discriminate.
    + destruct b; [intros _; right; left; reflexivity|discriminate].
    + destruct (num_falsy n); [discriminate|intros _; right; left; reflexivity].
    + destruct (String.eqb x "") eqn:E; simpl.
      * intros _. right. right. apply String.eqb_eq in E. rewrite E. reflexivity.
      * intros _. right. left. reflexivity.
    + intros _. right. left. reflexivity.
    + intros _. right. left. reflexivity.
  - intros [-> | [H | ->]]; [reflexivity| |reflexivity].
    rewrite H. destruct additionalContext; try reflexivity; discriminate H.
Qed.

(** X19: With a context that is absent or a string, each shorthand and
    [getPrompt] behave alike in the two variants under every
    transport. *)
Theorem shorthand_variants_agree (fetch : FetchCall -> fetch_outcome)
    (c : ShayaContentClient) (topic format context : value) (s : HookState) :
  context = VUndefined \/ (exists ctx, context = VStr ctx) ->
  run fetch (JS.generateArticle c topic context) s =
    run fetch (TS.generateArticle c topic context) s /\
  run fetch (JS.generateSocialPost c topic context) s =
    run fetch (TS.generateSocialPost c topic context) s /\
  run fetch (JS.generateClassOutline c topic context) s =
    run fetch (TS.generateClassOutline c topic context) s /\
  run fetch (JS.generateReflection c topic context) s =
    run fetch (TS.generateReflection c topic context) s /\
  run fetch (JS.getPrompt c topic format context) s =
    run fetch (TS.getPrompt c topic format context) s.
Proof.
  intros Hctx.
  assert (Hgen : forall f p, JS.generate c topic f context p
                             = TS.generate c topic f context p).
  { intros f p. unfold JS.generate, TS.generate. f_equal. f_equal.
    apply generate_payloads_agree_iff.
    destruct Hctx as [-> | [ctx ->]]; [left; reflexivity|].
    destruct ctx; [right; right; reflexivity|right; left; reflexivity]. }
  unfold JS.generateArticle, JS.generateSocialPost, JS.generateClassOutline,
    JS.generateReflection, JS.getPrompt, TS.generateArticle,
    TS.generateSocialPost, TS.generateClassOutline, TS.generateReflection,
    TS.getPrompt.
  cbv zeta. rewrite !JS_generate_context_default, JS_generate_format_default,
    TS_generate_format_default, !Hgen.
  repeat split.
Qed.

Lemma shorthand_variants_agree_witness :
  run (always {| status := 200; json := inr (VObj [("content", VStr "post")]) |})
    (JS.generateSocialPost (new_client "https://api.example.com" None)
       (VStr "Daily wisdom") (VStr "")) initial_state =
  run (always {| status := 200; json := inr (VObj [("content", VStr "post")]) |})
    (TS.generateSocialPost (new_client "https://api.example.com" None)
       (VStr "Daily wisdom") (VStr "")) initial_state.
Proof.
  apply (shorthand_variants_agree
           (always {| status := 200;
                      json := inr (VObj [("content", VStr "post")]) |})
           (new_client "https://api.example.com" None)
           (VStr "Daily wisdom") VUndefined (VStr "") initial_state).
  right. exists "". reflexivity.
Defined.

(** ** The hook: more of the lifecycle *)

(** X20: A tracked method that stores content and whose client call resolves
    with something that has a [content] to read: on settlement
    [isLoading] is [false], [error] is [null] even if an earlier call
    had left one, and [content] is the [content] of the response (so
    [undefined] when the response has no such field); [generate]
    resolves with the response, the shorthands and [getPrompt] with its
    content. *)
Theorem tracked_call_success (fetch : FetchCall -> fetch_outcome)
    (options : UseShayaContentOptions) (t : tracked_call) (s : HookState)
    (response stored : value) :
  bears_content t = true ->
  outcome (run fetch (underlying options t) s) = inr response ->
  get_prop response "content" = inr stored ->
  let r := run fetch (invoke options t) s in
  final_state r = {| isLoading := false; error := None; content := stored |} /\
  outcome r = inr (match t with
                   | CallGenerate _ _ _ => response
                   | _ => stored
                   end).
Proof.
  intros Hb Hu Hc r. subst r. rewrite run_invoke. unfold lifecycle.
  rewrite Hu, Hb, Hc. split; [reflexivity|].
  destruct t; try reflexivity; discriminate Hb.
Qed.

Lemma tracked_call_success_witness :
  let reply := VObj [("content", VStr "new text"); ("format", VStr "article")] in
  let options := {| opt_baseUrl := "https://api.example.com"; opt_apiKey := None |} in
  let r := run (always {| status := 200; json := inr reply |})
             (invoke options (CallGenerate (VStr "Hope") VUndefined VUndefined))
             {| isLoading := false; error := Some (new_Error "Invalid API key");
                content := VStr "old text" |} in
  final_state r = {| isLoading := false; error := None;
                     content := VStr "new text" |} /\
  outcome r = inr reply.
Proof.
  intros reply options r.
  apply (tracked_call_success (always {| status := 200; json := inr reply |})
           options (CallGenerate (VStr "Hope") VUndefined VUndefined)
           {| isLoading := false; error := Some (new_Error "Invalid API key");
              content := VStr "old text" |} reply (VStr "new text"));
    reflexivity.
Defined.

(** X21: [getVoiceProfile] and [getFormats] store nothing: when the client
    call resolves they resolve with the same value, whatever it is, and
    leave [content] as it was, with [isLoading] reset and [error]
    [null]. *)
Theorem tracked_call_plain_success (fetch : FetchCall -> fetch_outcome)
    (options : UseShayaContentOptions) (t : tracked_call) (s : HookState)
    (response : value) :
  bears_content t = false ->
  outcome (run fetch (underlying options t) s) = inr response ->
  let r := run fetch (invoke options t) s in
  final_state r = {| isLoading := false; error := None; content := content s |} /\
  outcome r = inr response.
Proof.
  intros Hb Hu r. subst r. rewrite run_invoke. unfold lifecycle.
  rewrite Hu, Hb. split; reflexivity.
Qed.

Lemma tracked_call_plain_success_witness :
  let options := {| opt_baseUrl := "https://api.example.com"; opt_apiKey := None |} in
  let r := run (always {| status := 200; json := inr VNull |})
             (invoke options CallGetFormats)
             {| isLoading := false; error := None; content := VStr "kept" |} in
  final_state r = {| isLoading := false; error := None; content := VStr "kept" |} /\
  outcome r = inr VNull.
Proof.
  intros options r.
  apply (tracked_call_plain_success
           (always {| status := 200; json := inr VNull |}) options
           CallGetFormats
           {| isLoading := false; error := None; content := VStr "kept" |} VNull);
    reflexivity.
Defined.

(** X22: A content-storing tracked method whose client call resolves with
    [null]: reading [content] throws inside the [try], so the method
    rejects with the [TypeError], which is stored in [error], and the
    earlier content stays. *)
Theorem tracked_call_null_response (fetch : FetchCall -> fetch_outcome)
    (options : UseShayaContentOptions) (t : tracked_call) (s : HookState) :
  bears_content t = true ->
  outcome (run fetch (underlying options t) s) = inr VNull ->
  let r := run fetch (invoke options t) s in
  outcome r = inl (ThrowError (TypeError_read "null" "content")) /\
  final_state r = {| isLoading := false;
                     error := Some (TypeError_read "null" "content");
                     content := content s |}.
Proof.
  intros Hb Hu r. subst r. rewrite run_invoke. unfold lifecycle.
  rewrite Hu, Hb. split; reflexivity.
Qed.

Lemma tracked_call_null_response_witness :
  let options := {| opt_baseUrl := "https://api.example.com"; opt_apiKey := None |} in
  let r := run (always {| status := 200; json := inr VNull |})
             (invoke options (CallGenerateArticle (VStr "Hope") VUndefined))
             {| isLoading := false; error := None; content := VStr "kept" |} in
  outcome r = inl (ThrowError (TypeError_read "null" "content")) /\
  final_state r = {| isLoading := false;
                     error := Some (TypeError_read "null" "content");
                     content := VStr "kept" |}.
Proof.
  intros options r.
  apply (tracked_call_null_response
           (always {| status := 200; json := inr VNull |}) options
           (CallGenerateArticle (VStr "Hope") VUndefined)
           {| isLoading := false; error := None; content := VStr "kept" |});
    reflexivity.
Defined.

(** X23: Tracking adds no traffic and hides no failure: a tracked method
    dispatches exactly the calls of the client call it awaits, and it
    resolves only if that call resolved. *)
Theorem tracked_call_transparent (fetch : FetchCall -> fetch_outcome)
    (options : UseShayaContentOptions) (t : tracked_call) (s : HookState) :
  dispatched (run fetch (invoke options t) s) =
    dispatched (run fetch (underlying options t) s) /\
  forall result,
    outcome (run fetch (invoke options t) s) = inr result ->
    exists response,
      outcome (run fetch (underlying options t) s) = inr response /\
      (result = response \/ get_prop response "content" = inr result).
Proof.
  rewrite run_invoke. unfold lifecycle.
  destruct (outcome (run fetch (underlying options t) s)) as [t0|response].
  - destruct (normalize t0); (split; [reflexivity|]);
      intros result H; discriminate H.
  - destruct (bears_content t).
    + destruct (get_prop response "content") as [e|v] eqn:Ec.
      * split; [reflexivity|]. intros result H. discriminate H.
      * split; [reflexivity|]. intros result H. exists response.
        split; [reflexivity|]. unfold outcome in H. simpl in H.
        injection H as <-. destruct t; simpl; auto.
    + split; [reflexivity|]. intros result H. exists response.
      split; [reflexivity|]. left. unfold outcome in H. simpl in H.
      injection H as <-. reflexivity.
Qed.

Lemma tracked_call_transparent_witness :
  let options := {| opt_baseUrl := "https://api.example.com"; opt_apiKey := None |} in
  let fetch := always {| status := 200;
                         json := inr (VObj [("content", VStr "text")]) |} in
  exists response,
    outcome (run fetch (underlying options
                          (CallGenerateReflection (VStr "Hope") VUndefined))
               initial_state) = inr response /\
    (VStr "text" = response \/ get_prop response "content" = inr (VStr "text")).
Proof.
  intros options fetch.
  apply (proj2 (tracked_call_transparent fetch options
                  (CallGenerateReflection (VStr "Hope") VUndefined)
                  initial_state) (VStr "text")).
  reflexivity.
Defined.

Lemma unprintable_normalize (t : thrown) :
  unprintable t -> exists e, normalize t = inl e.
Proof.
  intros (v & e & -> & He). exists e. simpl. rewrite He. reflexivity.
Qed.



(** X25: After any tracked method has settled, [isLoading] is [false]; a
    stored error is the very error the method rejected with, never one
    left by an earlier call; and [error] is [null] exactly when the
    method resolved or when the awaited call rejected with a value that
    is no [Error] and cannot be converted to a string. *)
Theorem tracked_call_error_iff_failed (fetch : FetchCall -> fetch_outcome)
    (options : UseShayaContentOptions) (t : tracked_call) (s : HookState) :
  let u := run fetch (underlying options t) s in
  let r := run fetch (invoke options t) s in
  isLoading (final_state r) = false /\
  (forall e, error (final_state r) = Some e -> outcome r = inl (ThrowError e)) /\
  (error (final_state r) = None <->
   (exists result, outcome r = inr result) \/
   (exists t0, outcome u = inl t0 /\ unprintable t0)).
Proof.
  intros u r. subst u r. rewrite run_invoke. unfold lifecycle.
  destruct (outcome (run fetch (underlying options t) s)) as [t0|response].
  - destruct (normalize t0) as [e|e] eqn:En.
    + split; [reflexivity|]. split; [intros e0 H; discriminate H|].
      split; [|reflexivity]. intros _. right. exists t0.
      split; [reflexivity|]. exact (normalize_unprintable t0 e En).
    + split; [reflexivity|]. split.
      * intros e0 H. injection H as <-. reflexivity.
      * split; [intros H; discriminate H|].
        intros [[result H] | (t1 & Ht1 & Hun)]; [discriminate H|].
        injection Ht1 as <-.
        destruct (unprintable_normalize t0 Hun) as [e1 He1].
        rewrite He1 in En. discriminate En.
  - destruct (bears_content t).
    + destruct (get_prop response "content") as [e0|v].
      * split; [reflexivity|]. split.
        -- intros e H. injection H as <-. reflexivity.
        -- split; [intros H; discriminate H|].
           intros [[result H] | (t1 & Ht1 & _)]; discriminate.
      * split; [reflexivity|]. split; [intros e H; discriminate H|].
        split; [|reflexivity]. intros _. left. eexists. reflexivity.
    + split; [reflexivity|]. split; [intros e H; discriminate H|].
      split; [|reflexivity]. intros _. left. eexists. reflexivity.
Qed.

Lemma tracked_call_error_iff_failed_witness :
  let options := {| opt_baseUrl := "https://api.example.com"; opt_apiKey := None |} in
  let fetch := always {| status := 503; json := inl (ThrowValue VUndefined) |} in
  outcome (run fetch (invoke options CallGetFormats) initial_state) =
    inl (ThrowError (new_Error "Unknown error")).
Proof.
  intros options fetch.
  apply (proj1 (proj2 (tracked_call_error_iff_failed fetch options
                         CallGetFormats initial_state))
           (new_Error "Unknown error")).
  reflexivity.
Defined.

(** ** [wrapAsync] *)





(** ** The sample component *)

Example blank_examples :
  blank "" = true /\
  blank "  " = true /\
  blank (String (ascii_of_N 9) (String (ascii_of_N 10) " ")) = true /\
  blank (String (ascii_of_N 194) (String (ascii_of_N 160) "")) = true /\
  blank (String (ascii_of_N 226) (String (ascii_of_N 128)
           (String (ascii_of_N 168) " "))) = true /\
  blank " a " = false /\
  blank (String (ascii_of_N 194) (String (ascii_of_N 169) "")) = false /\
  blank "Finding inner peace" = false.
Proof. repeat split. Qed.

Lemma run_handleSubmit (fetch : FetchCall -> fetch_outcome)
    (options : UseShayaContentOptions) (topic : string) (format : ContentFormat)
    (additionalContext : string) (s : HookState) :
  run fetch (handleSubmit options topic format additionalContext) s =
  if blank topic then (s, [], inr tt)
  else
    let g := run fetch (invoke options
                          (CallGenerate (VStr topic) (VStr (format_name format))
                             (VStr additionalContext))) s in
    (final_state g, dispatched g, inr tt).
Proof.
  unfold handleSubmit. destruct (blank topic); [reflexivity|].
  rewrite run_try_catch, run_bind. cbv zeta. unfold invoke.
  destruct (run fetch (useShayaContent.generate _ _ _ _) s)
    as [[s1 calls] [t|a]]; unfold final_state, dispatched; simpl;
    rewrite app_nil_r; reflexivity.
Qed.

(** X28: [handleSubmit] never rejects.  For a blank topic it does nothing: no
    call, no change of state.  Otherwise it makes the one call of the
    hook's [generate] and ends in the state [generate] ends in, so a
    failure of the client call that is an [Error] (or a value [String]
    can convert), swallowed by the handler, is still to be seen in
    [error]. *)
Theorem handleSubmit_never_rejects (fetch : FetchCall -> fetch_outcome)
    (options : UseShayaContentOptions) (topic : string) (format : ContentFormat)
    (additionalContext : string) (s : HookState) :
  let call := CallGenerate (VStr topic) (VStr (format_name format))
                (VStr additionalContext) in
  let r := run fetch (handleSubmit options topic format additionalContext) s in
  outcome r = inr tt /\
  (blank topic = true -> final_state r = s /\ dispatched r = []) /\
  (blank topic = false ->
   final_state r = final_state (run fetch (invoke options call) s) /\
   dispatched r = dispatched (run fetch (invoke options call) s) /\
   forall t0 e,
     outcome (run fetch (underlying options call) s) = inl t0 ->
     normalize t0 = inr e ->
     error (final_state r) = Some e /\
     isLoading (final_state r) = false).
Proof.
  intros call r. subst call r. rewrite run_handleSubmit.
  destruct (blank topic).
  - split; [reflexivity|]. split; [intros _; split; reflexivity|].
    intros H. discriminate H.
  - split; [reflexivity|]. split; [intros H; discriminate H|].
    intros _. split; [reflexivity|]. split; [reflexivity|].
    intros t0 e Hu Hn. cbv zeta.
    pose proof (run_invoke fetch options
                  (CallGenerate (VStr topic) (VStr (format_name format))
                     (VStr additionalContext)) s) as Hg.
    unfold lifecycle in Hg. rewrite Hu, Hn in Hg. rewrite Hg.
    split; reflexivity.
Qed.

Lemma handleSubmit_never_rejects_witness :
  let options := {| opt_baseUrl := "https://your-api.vercel.app";
                    opt_apiKey := None |} in
  let fetch := always {| status := 401;
                         json := inr (VObj [("detail", VStr "Invalid API key")]) |} in
  let r := run fetch (handleSubmit options "Finding inner peace" article "")
             initial_state in
  outcome r = inr tt /\
  error (final_state r) = Some (new_Error "Invalid API key") /\
  isLoading (final_state r) = false /\
  dispatched (run fetch (handleSubmit options "   " article "") initial_state) = [].
Proof.
  intros options fetch r.
  destruct (handleSubmit_never_rejects fetch options "Finding inner peace"
              article "" initial_state) as (Ho & _ & Hsent).
  destruct (Hsent eq_refl) as (_ & _ & Herr).
  destruct (Herr (ThrowError (new_Error "Invalid API key"))
              (new_Error "Invalid API key") eq_refl eq_refl)
    as [He Hl].
  destruct (handleSubmit_never_rejects fetch options "   " article ""
              initial_state) as (_ & Hblank & _).
  destruct (Hblank eq_refl) as [_ Hnone].
  split; [exact Ho|]. split; [exact He|]. split; [exact Hl|exact Hnone].
Defined.

(** X29: From the form to the wire: whenever the submit button is enabled,
    submitting dispatches exactly one call, the POST to [/generate]
    whose body holds the topic, the chosen format and the context of the
    form, with [prompt_only] false. *)
Theorem enabled_submit_dispatches (fetch : FetchCall -> fetch_outcome)
    (options : UseShayaContentOptions) (topic : string) (format : ContentFormat)
    (additionalContext : string) (s : HookState) :
  submit_disabled s topic = false ->
  dispatched (run fetch (handleSubmit options topic format additionalContext) s) =
  [ {| url := baseUrl (useShayaContent.client options) ++ "/generate";
       init := {| method := Some "POST";
                  body := JSON_stringify
                            (spec_payload topic (Some format)
                               (Some additionalContext) None);
                  headers := Some (request_headers
                                     (useShayaContent.client options)
                                     no_options) |} |} ].
Proof.
  unfold submit_disabled. intros Hen.
  apply orb_false_iff in Hen. destruct Hen as [_ Hblank].
  rewrite run_handleSubmit, Hblank. cbv zeta.
  unfold dispatched at 1. cbn [fst snd].
  rewrite run_invoke.
  assert (Hd : forall u, dispatched
                 (lifecycle (CallGenerate (VStr topic) (VStr (format_name format))
                               (VStr additionalContext)) s u) = dispatched u).
  { intros u. unfold lifecycle. destruct (outcome u) as [t0|response].
    - destruct (normalize t0); reflexivity.
    - simpl. destruct (get_prop response "content"); reflexivity. }
  rewrite Hd. unfold underlying. cbv zeta. unfold TS.generate.
  rewrite dispatched_request.
  change (param_default (VStr (format_name format)) (VStr "article"))
    with (arg_format (Some format)).
  change (VStr additionalContext) with (arg_string (Some additionalContext)).
  change VUndefined with (arg_bool None).
  rewrite TS_generate_payload_typed. reflexivity.
Qed.

Lemma enabled_submit_dispatches_witness :
  exists call,
    dispatched (run (always {| status := 200; json := inr (VObj []) |})
                  (handleSubmit {| opt_baseUrl := "https://your-api.vercel.app/";
                                   opt_apiKey := Some "key" |}
                     "Finding inner peace" social_media "For young professionals")
                  initial_state) = [call] /\
    url call = "https://your-api.vercel.app/generate" /\
    method (init call) = Some "POST".
Proof.
  eexists. split.
  - apply (enabled_submit_dispatches
             (always {| status := 200; json := inr (VObj []) |})
             {| opt_baseUrl := "https://your-api.vercel.app/";
                opt_apiKey := Some "key" |}
             "Finding inner peace" social_media "For young professionals"
             initial_state).
    reflexivity.
  - split; reflexivity.
Defined.
